(** * Todo list application: store transitions, biometric gate, facade

    A shallow embedding of the application core:
    - the reducer of the todo store and the provider's operations
      (contexts/TodoContext),
    - the storage service (services/storageService.ts),
    - the biometric service (services/biometricService),
    - the authentication gate (hooks/useAuth),
    - the operation facade (hooks/useTodos).

    JavaScript strings are sequences of UTF-16 code units, timestamps are
    integers, asynchronous functions are state-passing functions over an
    abstract device whose answers may change from one call to the next. *)

From Stdlib Require Import List ZArith NArith Bool String Ascii Lia.
From Stdlib Require Import DecimalString QArith.
From ExtLib Require Import Structures.Monad Structures.MonadExc.
Import ListNotations.
Import MonadNotation.

Set Implicit Arguments.

(* ------------------------------------------------------------------ *)
(** ** JavaScript strings *)

Module JS.

(** A string value: its UTF-16 code units. *)
Definition jsstring := list N.

(** A literal of the source, written with ASCII characters. *)
Definition js (s : string) : jsstring :=
  List.map N_of_ascii (list_ascii_of_string s).

(** [a === b] on strings. *)
Fixpoint strict_eq (a b : jsstring) : bool :=
  match a, b with
  | [], [] => true
  | x :: a', y :: b' => N.eqb x y && strict_eq a' b'
  | _, _ => false
  end.

(** Code units removed by [String.prototype.trim]: the WhiteSpace and
    LineTerminator productions of ECMAScript. *)
Definition is_white_space (c : N) : bool :=
  ((9 <=? c) && (c <=? 13) || (c =? 32) || (c =? 160) || (c =? 5760)
   || (8192 <=? c) && (c <=? 8202) || (c =? 8232) || (c =? 8233)
   || (c =? 8239) || (c =? 8287) || (c =? 12288) || (c =? 65279))%N.

Fixpoint trimStart (s : jsstring) : jsstring :=
  match s with
  | [] => []
  | c :: r => if is_white_space c then trimStart r else s
  end.

Definition trimEnd (s : jsstring) : jsstring := rev (trimStart (rev s)).

(** [s.trim()] *)
Definition trim (s : jsstring) : jsstring := trimEnd (trimStart s).

(** Truthiness of a string: only the empty string is falsy. *)
Definition truthy (s : jsstring) : bool :=
  match s with [] => false | _ :: _ => true end.

(** [e || dflt] where [e] is [string | undefined]. *)
Definition or_else (e : option jsstring) (dflt : jsstring) : jsstring :=
  match e with
  | Some s => if truthy s then s else dflt
  | None => dflt
  end.

(** Template rendering of an integer: [`${n}`]. *)
Definition of_Z (n : Z) : jsstring := js (NilZero.string_of_int (Z.to_int n)).

End JS.
Import JS.

(* ------------------------------------------------------------------ *)
(** ** Data model *)

(** Modelled from the spec: the declarations of [Todo], [CreateTodoInput]
    and [UpdateTodoInput] (types/) are not among the sources.  The fields
    of [Todo] are those of section 3 of the specification, which are also
    the fields every literal of the sources and tests gives it. *)
Record Todo := mkTodo {
  id : jsstring;
  title : jsstring;
  description : option jsstring;
  completed : bool;
  createdAt : Z;
  updatedAt : Z
}.

(** Modelled from the spec: [create(input: {title, description?})]. *)
Record CreateTodoInput := mkCreate {
  c_title : jsstring;
  c_description : option jsstring
}.

(** Modelled from the spec: the "partial fields" of [update].  A field that
    is [None] is absent from the object; [u_description = Some None] is a
    [description] key that is present and holds [undefined], as the form
    sends it for an empty description. *)
Record UpdateTodoInput := mkUpdate {
  u_title : option jsstring;
  u_description : option (option jsstring);
  u_completed : option bool
}.

Inductive TodoAction :=
| SET_TODOS (payload : list Todo)
| ADD_TODO (payload : Todo)
| UPDATE_TODO (id : jsstring) (updates : UpdateTodoInput)
| DELETE_TODO (payload : jsstring)
| TOGGLE_TODO (payload : jsstring)
| SET_LOADING (payload : bool)
| SET_ERROR (payload : option jsstring).

Record TodoState := mkState {
  todos : list Todo;
  loading : bool;
  error : option jsstring
}.

Definition initialState : TodoState :=
  {| todos := []; loading := true; error := None |}.

(* ------------------------------------------------------------------ *)
(** ** Outcomes of calls *)

(** A thrown value: an [Error] object with its message, or anything else. *)
Inductive exn :=
| JsError (message : jsstring)
| JsValue.

(** How a call (or the promise it returns) ends: it returns a value, it
    throws, or its promise is never settled. *)
Inductive outcome (A : Type) :=
| Ret (a : A)
| Throw (e : exn)
| Pending.
Arguments Throw {A} e.
Arguments Pending {A}.

Definition is_throw {A} (o : outcome A) : bool :=
  match o with Throw _ => true | _ => false end.

(* ------------------------------------------------------------------ *)
(** ** The device: what the application calls and does not define *)

Inductive AuthenticationType := FINGERPRINT | FACIAL_RECOGNITION | IRIS.

Inductive PlatformOS := ios | android.

(** The options record passed to [LocalAuthentication.authenticateAsync]. *)
Record AuthOptions := mkOptions {
  promptMessage : jsstring;
  fallbackLabel : jsstring;
  cancelLabel : jsstring;
  disableDeviceFallback : bool
}.

(** [LocalAuthenticationResult]. *)
Record LAResult := mkLA {
  la_success : bool;
  la_error : option jsstring
}.

(** Every call takes the device as it is and returns it as the call left
    it, so two calls of one function may answer differently. *)
Class Platform (W : Type) := {
  (** [Date.now()] *)
  dateNow : W -> Z * W;
  (** [Math.random().toString(36).substr(2, 9)] *)
  randomSuffix : W -> jsstring * W;
  (** [Platform.OS] *)
  platformOS : PlatformOS;
  (** expo-local-authentication *)
  hasHardwareAsync : W -> outcome bool * W;
  isEnrolledAsync : W -> outcome bool * W;
  supportedAuthenticationTypesAsync : W -> outcome (list AuthenticationType) * W;
  authenticateAsync : AuthOptions -> W -> outcome LAResult * W;
  (** [AsyncStorage.getItem(key)]; [None] is [null]. *)
  getItem : jsstring -> W -> outcome (option jsstring) * W;
  (** [JSON.parse(text) as Todo[]] *)
  jsonParse : jsstring -> outcome (list Todo);
  (** [Linking.openURL(url)] and [Linking.openSettings()] *)
  openURL : jsstring -> W -> outcome unit * W;
  openSettings : W -> outcome unit * W;
  (** The button of an open dialog that the user presses, by position;
      [None] when no button is ever pressed. *)
  pressButton : W -> option nat * W
}.

(** The writing half of AsyncStorage, and [JSON.stringify] on an array of
    todos, which returns a text for every array. *)
Class Storage (W : Type) := {
  (** [AsyncStorage.setItem(key, value)] *)
  setItem : jsstring -> jsstring -> W -> outcome unit * W;
  (** [AsyncStorage.removeItem(key)] *)
  removeItem : jsstring -> W -> outcome unit * W;
  (** [AsyncStorage.clear()] *)
  clear : W -> outcome unit * W;
  (** [JSON.stringify(todos)] *)
  jsonStringify : list Todo -> jsstring
}.

(* ------------------------------------------------------------------ *)
(** ** Todo store: the reducer *)

Section Reducer.
Context {W : Type} `{Platform W}.

(** [list.map(f)] for an [f] that reads the clock: elements are visited
    from left to right. *)
Fixpoint map_now {A B} (f : A -> W -> B * W) (l : list A) (w : W)
  : list B * W :=
  match l with
  | [] => ([], w)
  | x :: r =>
      let (y, w1) := f x w in
      let (r', w2) := map_now f r w1 in
      (y :: r', w2)
  end.

(** [{ ...todo, ...updates }] *)
Definition merge (todo : Todo) (updates : UpdateTodoInput) : Todo :=
  {| id := id todo;
     title := match u_title updates with Some t => t | None => title todo end;
     description := match u_description updates with
                    | Some d => d
                    | None => description todo
                    end;
     completed := match u_completed updates with
                  | Some c => c
                  | None => completed todo
                  end;
     createdAt := createdAt todo;
     updatedAt := updatedAt todo |}.

Definition with_updatedAt (todo : Todo) (now : Z) : Todo :=
  {| id := id todo; title := title todo; description := description todo;
     completed := completed todo; createdAt := createdAt todo;
     updatedAt := now |}.

Definition with_completed (todo : Todo) (c : bool) : Todo :=
  {| id := id todo; title := title todo; description := description todo;
     completed := c; createdAt := createdAt todo;
     updatedAt := updatedAt todo |}.

(** The element function of the [UPDATE_TODO] case. *)
Definition update_one (i : jsstring) (updates : UpdateTodoInput)
           (todo : Todo) (w : W) : Todo * W :=
  if strict_eq (id todo) i then
    let (now, w1) := dateNow w in
    (with_updatedAt (merge todo updates) now, w1)
  else (todo, w).

(** The element function of the [TOGGLE_TODO] case. *)
Definition toggle_one (i : jsstring) (todo : Todo) (w : W) : Todo * W :=
  if strict_eq (id todo) i then
    let (now, w1) := dateNow w in
    (with_updatedAt (with_completed todo (negb (completed todo))) now, w1)
  else (todo, w).

Definition todoReducer (state : TodoState) (action : TodoAction) (w : W)
  : TodoState * W :=
  match action with
  | SET_TODOS payload =>
      ({| todos := payload; loading := false; error := None |}, w)
  | ADD_TODO payload =>
      ({| todos := payload :: todos state;
          loading := loading state; error := None |}, w)
  | UPDATE_TODO i updates =>
      let (ts, w1) := map_now (update_one i updates) (todos state) w in
      ({| todos := ts; loading := loading state; error := None |}, w1)
  | DELETE_TODO payload =>
      ({| todos := filter (fun todo => negb (strict_eq (id todo) payload))
                          (todos state);
          loading := loading state; error := None |}, w)
  | TOGGLE_TODO payload =>
      let (ts, w1) := map_now (toggle_one payload) (todos state) w in
      ({| todos := ts; loading := loading state; error := None |}, w1)
  | SET_LOADING payload =>
      ({| todos := todos state; loading := payload; error := error state |}, w)
  | SET_ERROR payload =>
      ({| todos := todos state; loading := false; error := payload |}, w)
  end.

(** The next [n] readings of the clock. *)
Fixpoint readings (n : nat) (w : W) : list Z :=
  match n with
  | O => []
  | S k => let (now, w1) := dateNow w in now :: readings k w1
  end.

End Reducer.

(* ------------------------------------------------------------------ *)
(** ** Programs: application state, device, and a log of what was done *)

(** What a run does that its caller can observe: every call to a
    collaborator with its answer, every dialog, and every invocation of an
    operation handed to the gate. *)
Inductive Event :=
| EvHasHardware (r : outcome bool)
| EvIsEnrolled (r : outcome bool)
| EvSupportedTypes (r : outcome (list AuthenticationType))
| EvChallenge (options : AuthOptions) (r : outcome LAResult)
| EvGetItem (key : jsstring) (r : outcome (option jsstring))
| EvOpenURL (url : jsstring) (r : outcome unit)
| EvOpenSettings (r : outcome unit)
| EvAlert (title message : jsstring) (buttons : list jsstring)
| EvPress (button : option nat)
| EvConsoleError (message : jsstring)
| EvOperation
| EvOperationThrew.

(** The state of the provider ([store]), the state of the [useAuth] hook,
    and the device. *)
Record Core (W : Type) := mkCore {
  store : TodoState;
  isAvailable : bool;
  isAuthenticating : bool;
  biometricType : jsstring;
  device : W
}.

Section Programs.
Context {W : Type}.

(** An operation of the store: it sees the state and the device and
    cannot write to the log. *)
Definition P (A : Type) : Type := Core W -> outcome A * Core W.

(** A program of the gate, the services or the facade. *)
Definition M (A : Type) : Type := Core W -> outcome A * Core W * list Event.

Definition m_ret {A} (a : A) : M A := fun c => (Ret a, c, []).

Definition m_bind {A B} (m : M A) (k : A -> M B) : M B :=
  fun c =>
    match m c with
    | (Ret a, c1, t1) => let '(r, c2, t2) := k a c1 in (r, c2, t1 ++ t2)
    | (Throw e, c1, t1) => (Throw e, c1, t1)
    | (Pending, c1, t1) => (Pending, c1, t1)
    end.

(** [throw e] *)
Definition m_raise {A} (e : exn) : M A := fun c => (Throw e, c, []).

(** [try { body } catch (error) { handler }] *)
Definition m_catch {A} (body : M A) (handler : exn -> M A) : M A :=
  fun c =>
    match body c with
    | (Throw e, c1, t1) => let '(r, c2, t2) := handler e c1 in (r, c2, t1 ++ t2)
    | other => other
    end.

(** [try { body } finally { fin }] *)
Definition m_finally {A} (body : M A) (fin : M unit) : M A :=
  fun c =>
    match body c with
    | (Pending, c1, t1) => (Pending, c1, t1)
    | (r, c1, t1) =>
        match fin c1 with
        | (Ret _, c2, t2) => (r, c2, t1 ++ t2)
        | (Throw e, c2, t2) => (Throw e, c2, t1 ++ t2)
        | (Pending, c2, t2) => (Pending, c2, t1 ++ t2)
        end
    end.

Definition set_device (c : Core W) (w : W) : Core W :=
  {| store := store c; isAvailable := isAvailable c;
     isAuthenticating := isAuthenticating c;
     biometricType := biometricType c; device := w |}.

Definition set_store (c : Core W) (s : TodoState) : Core W :=
  {| store := s; isAvailable := isAvailable c;
     isAuthenticating := isAuthenticating c;
     biometricType := biometricType c; device := device c |}.

(** A call to the device, logged with its answer. *)
Definition call {A} (f : W -> outcome A * W) (ev : outcome A -> Event) : M A :=
  fun c => let (r, w) := f (device c) in (r, set_device c w, [ev r]).

Definition log (e : Event) : M unit := fun c => (Ret tt, c, [e]).

(** [console.error(message, error)] *)
Definition console_error (message : string) : M unit :=
  log (EvConsoleError (js message)).

(** [Alert.alert(title, message, buttons)] for a notice: no button of it
    has a handler. *)
Definition alert (title message : jsstring) (buttons : list jsstring) : M unit :=
  log (EvAlert title message buttons).

(** A value that is already there, or was thrown. *)
Definition settle {A} (o : outcome A) : M A := fun c => (o, c, []).

(** Running a store operation, unlogged. *)
Definition liftP {A} (p : P A) : M A :=
  fun c => let (r, c1) := p c in (r, c1, []).

(** Invoking the operation handed to the gate: [operation()]. *)
Definition invoke {A} (operation : P A) : M A :=
  fun c =>
    let (r, c1) := operation c in
    (r, c1, EvOperation :: (if is_throw r then [EvOperationThrew] else [])).

Definition getIsAvailable : M bool := fun c => (Ret (isAvailable c), c, []).

Definition setIsAvailable (b : bool) : M unit :=
  fun c => (Ret tt,
            {| store := store c; isAvailable := b;
               isAuthenticating := isAuthenticating c;
               biometricType := biometricType c; device := device c |}, []).

Definition setIsAuthenticating (b : bool) : M unit :=
  fun c => (Ret tt,
            {| store := store c; isAvailable := isAvailable c;
               isAuthenticating := b;
               biometricType := biometricType c; device := device c |}, []).

Definition setBiometricType (s : jsstring) : M unit :=
  fun c => (Ret tt,
            {| store := store c; isAvailable := isAvailable c;
               isAuthenticating := isAuthenticating c;
               biometricType := s; device := device c |}, []).

(** A button of a dialog and what pressing it does. *)
Record AlertButton (R : Type) := mkButton {
  text : jsstring;
  style : option jsstring;
  onPress : M R
}.

Record AlertConfig (R : Type) := mkConfig {
  alertTitle : jsstring;
  message : jsstring;
  buttons : list (AlertButton R)
}.

End Programs.

Arguments P W A : clear implicits.
Arguments M W A : clear implicits.

#[global] Instance Monad_M {W : Type} : Monad (M W) :=
  {| ret := fun A => @m_ret W A; bind := fun A B => @m_bind W A B |}.

#[global] Instance MonadExc_M {W : Type} : MonadExc exn (M W) :=
  {| raise := fun A => @m_raise W A; catch := fun A => @m_catch W A |}.

Local Open Scope monad_scope.

Section Unlogged.
Context {W : Type}.

(** A call to the device that the log has no entry for: what it did is
    read off the device. *)
Definition perform {A} (f : W -> outcome A * W) : M W A :=
  fun c => let (r, w) := f (device c) in (r, set_device c w, []).

(** [console.log(...)]: its output is not part of the log. *)
Definition console_log (message : string) : M W unit := ret tt.

End Unlogged.

(* ------------------------------------------------------------------ *)
(** ** Storage service (services/storageService.ts) *)

Module storageService.
Section Service.
Context {W : Type} `{Platform W}.

(** [STORAGE_KEYS.TODOS] *)
Definition TODOS : jsstring := js "@TodoList:todos".

Definition loadTodos : M W (list Todo) :=
  catch
    (jsonValue <- call (getItem TODOS) (EvGetItem TODOS) ;;
     match jsonValue with
     | None => ret []
     | Some text =>
         todos <- settle (jsonParse text) ;;
         ret todos
     end)
    (fun error =>
       console_error "Error loading todos:" ;;
       ret []).

End Service.

Section Writes.
Context {W : Type} `{Platform W} `{Storage W}.

(** [STORAGE_KEYS.BIOMETRIC_SETUP] and [STORAGE_KEYS.HAS_LAUNCHED] *)
Definition BIOMETRIC_SETUP : jsstring := js "@TodoList:biometric_setup".

Definition HAS_LAUNCHED : jsstring := js "@TodoList:has_launched".

Definition saveTodos (todos : list Todo) : M W unit :=
  catch
    (let jsonValue := jsonStringify todos in
     perform (setItem TODOS jsonValue))
    (fun error =>
       console_error "Error saving todos:" ;;
       raise (JsError (js "Failed to save todos to storage"))).

Definition clearTodos : M W unit :=
  catch
    (perform (removeItem TODOS))
    (fun error =>
       console_error "Error clearing todos:" ;;
       raise (JsError (js "Failed to clear todos from storage"))).

Definition clearAll : M W unit :=
  catch
    (perform clear)
    (fun error =>
       console_error "Error clearing storage:" ;;
       raise (JsError (js "Failed to clear storage"))).

Definition isFirstLaunch : M W bool :=
  catch
    (hasLaunched <- call (getItem HAS_LAUNCHED) (EvGetItem HAS_LAUNCHED) ;;
     ret (match hasLaunched with None => true | Some _ => false end))
    (fun error =>
       console_error "Error checking first launch:" ;;
       ret false).

Definition setHasLaunched : M W unit :=
  catch
    (perform (setItem HAS_LAUNCHED (js "true")))
    (fun error =>
       console_error "Error setting has launched:" ;;
       raise (JsError (js "Failed to save launch status"))).

Definition isBiometricSetupComplete : M W bool :=
  catch
    (isComplete <- call (getItem BIOMETRIC_SETUP) (EvGetItem BIOMETRIC_SETUP) ;;
     ret (match isComplete with
          | Some value => strict_eq value (js "true")
          | None => false
          end))
    (fun error =>
       console_error "Error checking biometric setup:" ;;
       ret false).

Definition setBiometricSetupComplete : M W unit :=
  catch
    (perform (setItem BIOMETRIC_SETUP (js "true")))
    (fun error =>
       console_error "Error setting biometric setup:" ;;
       raise (JsError (js "Failed to save biometric setup status"))).

End Writes.
End storageService.

(* ------------------------------------------------------------------ *)
(** ** Todo store: the provider (contexts/TodoContext) *)

Module TodoContext.
Section Provider.
Context {W : Type} `{Platform W}.

(** [dispatch(action)]: the reducer is applied to the current state. *)
Definition dispatch (action : TodoAction) : P W unit :=
  fun c =>
    let (s, w) := todoReducer (store c) action (device c) in
    (Ret tt, set_device (set_store c s) w).

Definition loadTodos : M W unit :=
  catch
    (liftP (dispatch (SET_LOADING true)) ;;
     todos <- storageService.loadTodos ;;
     liftP (dispatch (SET_TODOS todos)))
    (fun error =>
       liftP (dispatch (SET_ERROR (Some (js "Failed to load todos"))))).

(** The object literal of [addTodo]: its fields are evaluated in the
    order they are written, each [Date.now()] being a reading of its own. *)
Definition newTodo (input : CreateTodoInput) (w : W) : Todo * W :=
  let (t0, w1) := dateNow w in
  let (suffix, w2) := randomSuffix w1 in
  let (t1, w3) := dateNow w2 in
  let (t2, w4) := dateNow w3 in
  ({| id := of_Z t0 ++ js "-" ++ suffix;
      title := trim (c_title input);
      description := option_map trim (c_description input);
      completed := false;
      createdAt := t1;
      updatedAt := t2 |}, w4).

Definition addTodo (input : CreateTodoInput) : P W unit :=
  fun c =>
    let (todo, w) := newTodo input (device c) in
    dispatch (ADD_TODO todo) (set_device c w).

Definition updateTodo (i : jsstring) (updates : UpdateTodoInput) : P W unit :=
  dispatch (UPDATE_TODO i updates).

Definition deleteTodo (i : jsstring) : P W unit :=
  dispatch (DELETE_TODO i).

Definition toggleTodo (i : jsstring) : P W unit :=
  dispatch (TOGGLE_TODO i).

(** [restore]: the provider's state after the load it runs on mount,
    together with what the load returned to its caller. *)
Definition restore (w : W) : outcome unit * TodoState :=
  let '(r, c, _) :=
    loadTodos {| store := initialState; isAvailable := false;
                 isAuthenticating := false; biometricType := js "Biometric";
                 device := w |} in
  (r, store c).

End Provider.

Section Persistence.
Context {W : Type} `{Platform W} `{Storage W}.

(** The provider's [saveTodos]: it writes the items of the state it was
    created with, the current one. *)
Definition saveTodos : M W unit :=
  fun c =>
    catch
      (storageService.saveTodos (todos (store c)))
      (fun error =>
         console_error "Failed to save todos:" ;;
         ret tt) c.

(** The effect that runs when [state.loading] or the items change:
    [if (!state.loading) saveTodos()]. *)
Definition persist : M W unit :=
  fun c =>
    (if negb (loading (store c)) then saveTodos else ret tt) c.

End Persistence.
End TodoContext.

(* ------------------------------------------------------------------ *)
(** ** Biometric service (services/biometricService) *)

Module Auth.
(** [AuthResult] of types/auth *)
Record AuthResult := mkResult {
  success : bool;
  error : option jsstring
}.
End Auth.

Module biometricService.
Section Service.
Context {W : Type} `{Platform W}.

Definition isBiometricAvailable : M W bool :=
  catch
    (hasHardware <- call hasHardwareAsync EvHasHardware ;;
     if negb hasHardware then ret false
     else
       isEnrolled <- call isEnrolledAsync EvIsEnrolled ;;
       ret isEnrolled)
    (fun error =>
       console_error "Error checking biometric availability:" ;;
       ret false).

Definition getSupportedAuthenticationTypes : M W (list AuthenticationType) :=
  catch
    (call supportedAuthenticationTypesAsync EvSupportedTypes)
    (fun error =>
       console_error "Error getting supported authentication types:" ;;
       ret []).

(** The options [authenticate] passes to the platform challenge. *)
Definition challengeOptions (prompt : jsstring) : AuthOptions :=
  {| promptMessage := prompt;
     fallbackLabel := js "Use Passcode";
     cancelLabel := js "Cancel";
     disableDeviceFallback := false |}.

(** [prompt = None] is a call without argument: the default applies. *)
Definition authenticate (prompt : option jsstring) : M W Auth.AuthResult :=
  let prompt := match prompt with
                | Some m => m
                | None => js "Authenticate to continue"
                end in
  catch
    (available <- isBiometricAvailable ;;
     if negb available then
       ret {| Auth.success := false;
              Auth.error := Some (js "Biometric authentication is not available on this device") |}
     else
       result <- call (authenticateAsync (challengeOptions prompt))
                      (EvChallenge (challengeOptions prompt)) ;;
       if la_success result then
         ret {| Auth.success := true; Auth.error := None |}
       else
         ret {| Auth.success := false;
                Auth.error := Some (or_else (la_error result) (js "Authentication failed")) |})
    (fun error =>
       console_error "Authentication error:" ;;
       ret {| Auth.success := false;
              Auth.error := Some (match error with
                                  | JsError m => m
                                  | JsValue => js "Unknown authentication error"
                                  end) |}).

Definition same_type (a b : AuthenticationType) : bool :=
  match a, b with
  | FINGERPRINT, FINGERPRINT => true
  | FACIAL_RECOGNITION, FACIAL_RECOGNITION => true
  | IRIS, IRIS => true
  | _, _ => false
  end.

(** [types.includes(t)] *)
Definition includes (types : list AuthenticationType) (t : AuthenticationType) : bool :=
  existsb (same_type t) types.

Definition getBiometricTypeName : M W jsstring :=
  types <- getSupportedAuthenticationTypes ;;
  if includes types FACIAL_RECOGNITION then ret (js "Face ID")
  else if includes types FINGERPRINT then ret (js "Touch ID")
  else if includes types IRIS then ret (js "Iris")
  else ret (js "Biometric").

Definition hasBiometricHardwareButNotEnrolled : M W bool :=
  catch
    (hasHardware <- call hasHardwareAsync EvHasHardware ;;
     if negb hasHardware then ret false
     else
       isEnrolled <- call isEnrolledAsync EvIsEnrolled ;;
       ret (negb isEnrolled))
    (fun error =>
       console_error "Error checking biometric enrollment:" ;;
       ret false).

End Service.
End biometricService.

(* ------------------------------------------------------------------ *)
(** ** Authentication gate (hooks/useAuth) *)

Module useAuth.

Record BiometricStatus := mkStatus {
  hasHardware : bool;
  isEnrolled : bool
}.

Section Hook.
Context {W : Type} `{Platform W}.

Definition getBiometricSettingsPath : jsstring :=
  match platformOS with
  | ios => js "Face ID & Passcode"
  | android => js "Security"
  end.

(** The handlers are the three closures of the caller; each returns the
    value it resolves the caller's promise with. *)
Definition generateAlertConfig {R} (status : BiometricStatus)
    (biometricTypeName : jsstring)
    (onCancel onOpenSettings onContinueWithoutAuth : M W R) : AlertConfig R :=
  if negb (hasHardware status) then
    {| alertTitle := js "Biometric Not Available";
       message := js "Your device does not support biometric authentication. The operation will proceed without authentication.";
       buttons :=
         [ {| text := js "Cancel"; style := Some (js "cancel"); onPress := onCancel |};
           {| text := js "Continue"; style := None; onPress := onContinueWithoutAuth |} ] |}
  else if negb (isEnrolled status) then
    {| alertTitle := biometricTypeName ++ js " Not Set Up";
       message := js "Please set up " ++ biometricTypeName
                  ++ js " on your device first. Go to Settings > "
                  ++ getBiometricSettingsPath ++ js " to enable "
                  ++ biometricTypeName ++ js ".";
       buttons :=
         [ {| text := js "Cancel"; style := Some (js "cancel"); onPress := onCancel |};
           {| text := js "Open Settings"; style := None; onPress := onOpenSettings |} ] |}
  else
    {| alertTitle := js "Enable " ++ biometricTypeName;
       message := js "This app needs permission to use " ++ biometricTypeName
                  ++ js ". Please enable it in your device settings.";
       buttons :=
         [ {| text := js "Cancel"; style := Some (js "cancel"); onPress := onCancel |};
           {| text := js "Open Settings"; style := None; onPress := onOpenSettings |} ] |}.

(** [new Promise(resolve => { ...; Alert.alert(title, message, buttons) })]:
    the dialog is shown, the user presses one of its buttons, the handler
    of that button runs and resolves the promise.  The promise is never
    settled when no button is pressed, and when the handler throws or does
    not finish: nothing but a handler resolves it, and nothing rejects it. *)
Definition promiseOfAlert {R} (config : AlertConfig R) : M W R :=
  fun c =>
    let (pressed, w) := pressButton (device c) in
    let c1 := set_device c w in
    let shown := [EvAlert (alertTitle config) (message config)
                          (map (@text W R) (buttons config));
                  EvPress pressed] in
    match pressed with
    | None => (Pending, c1, shown)
    | Some i =>
        match nth_error (buttons config) i with
        | None => (Pending, c1, shown)
        | Some button =>
            match onPress button c1 with
            | (Ret r, c2, t) => (Ret r, c2, shown ++ t)
            | (_, c2, t) => (Pending, c2, shown ++ t)
            end
        end
    end.

Definition openAppSettings : M W unit :=
  catch
    (match platformOS with
     | ios => call (openURL (js "app-settings:")) (EvOpenURL (js "app-settings:"))
     | android => call openSettings EvOpenSettings
     end)
    (fun error =>
       console_error "Error opening settings:" ;;
       alert (js "Error") (js "Unable to open settings") [] ;;
       raise error).

(** [Promise.all([p, q])]: both are started, in the order of the array;
    it fulfils when both did, rejects when one rejected, and is never
    settled otherwise. *)
Definition promiseAll {A B} (p : M W A) (q : M W B) : M W (A * B) :=
  fun c =>
    let '(r1, c1, t1) := p c in
    let '(r2, c2, t2) := q c1 in
    (match r1, r2 with
     | Ret a, Ret b => Ret (a, b)
     | Throw e, _ => Throw e
     | _, Throw e => Throw e
     | _, _ => Pending
     end, c2, t1 ++ t2).

Definition getBiometricStatus : M W BiometricStatus :=
  catch
    ('(types, notEnrolled) <-
       promiseAll biometricService.getSupportedAuthenticationTypes
                  biometricService.hasBiometricHardwareButNotEnrolled ;;
     ret {| hasHardware := Nat.ltb 0 (List.length types);
            isEnrolled := negb notEnrolled |})
    (fun error =>
       console_error "Error getting biometric status:" ;;
       ret {| hasHardware := false; isEnrolled := false |}).

(** A result of type [T | undefined]: [None] is [undefined]. *)
Definition executeOperationWithoutAuth {T} (operation : P W T) : M W (option T) :=
  catch
    (v <- invoke operation ;; ret (Some v))
    (fun error =>
       console_error "Operation failed:" ;;
       alert (js "Error") (js "Failed to complete operation") [] ;;
       ret None).

Definition handleBiometricNotAvailable {T} (operation : P W T)
    (biometricTypeName : jsstring) : M W (option T) :=
  catch
    (status <- getBiometricStatus ;;
     promiseOfAlert
       (generateAlertConfig status biometricTypeName
          (* onCancel *)
          (ret None)
          (* onOpenSettings: the [finally] block resolves with undefined *)
          (m_finally (catch openAppSettings (fun error => ret tt)) (ret tt) ;;
           ret None)
          (* onContinueWithoutAuth *)
          (result <- executeOperationWithoutAuth operation ;;
           ret result)))
    (fun error =>
       console_error "Error handling biometric unavailability:" ;;
       ret None).

(** [prompt = None] is a call without the second argument. *)
Definition authenticateAndExecute {T} (operation : P W T)
    (prompt : option jsstring) : M W (option T) :=
  let prompt := match prompt with
                | Some m => m
                | None => js "Authenticate to continue"
                end in
  m_finally
    (catch
       (setIsAuthenticating true ;;
        available <- biometricService.isBiometricAvailable ;;
        known <- getIsAvailable ;;
        (if negb (Bool.eqb available known) then
           setIsAvailable available ;;
           if available then
             type <- biometricService.getBiometricTypeName ;;
             setBiometricType type
           else ret tt
         else ret tt) ;;
        if negb available then
          setIsAuthenticating false ;;
          currentBiometricType <- biometricService.getBiometricTypeName ;;
          handleBiometricNotAvailable operation currentBiometricType
        else
          authResult <- biometricService.authenticate (Some prompt) ;;
          if Auth.success authResult then
            v <- invoke operation ;;
            ret (Some v)
          else
            alert (js "Authentication Failed")
                  (or_else (Auth.error authResult) (js "Please try again"))
                  [js "OK"] ;;
            ret None)
       (fun error =>
          console_error "Authentication error:" ;;
          alert (js "Error") (js "An error occurred during authentication") [] ;;
          ret None))
    (setIsAuthenticating false).

End Hook.

Section Mount.
Context {W : Type} `{Platform W}.

(** [dev] is the global [__DEV__]. *)
Definition checkAvailability (dev : bool) : M W unit :=
  catch
    (available <- biometricService.isBiometricAvailable ;;
     setIsAvailable available ;;
     (if available then
        type <- biometricService.getBiometricTypeName ;;
        setBiometricType type
      else ret tt) ;;
     if dev then console_log "Biometric availability:" else ret tt)
    (fun error =>
       console_error "Error checking biometric availability:" ;;
       setIsAvailable false).

End Mount.
End useAuth.

(* ------------------------------------------------------------------ *)
(** ** Operation facade (hooks/useTodos) *)

Module useTodos.
Section Hook.
Context {W : Type} `{Platform W}.

Definition handleAddTodo (input : CreateTodoInput) : M W unit :=
  if negb (truthy (trim (c_title input))) then
    alert (js "Invalid Input") (js "Please enter a title for the todo") []
  else
    useAuth.authenticateAndExecute (TodoContext.addTodo input)
      (Some (js "Authenticate to add a new todo")) ;;
    ret tt.

Definition handleUpdateTodo (i : jsstring) (updates : UpdateTodoInput) : M W unit :=
  useAuth.authenticateAndExecute (TodoContext.updateTodo i updates)
    (Some (js "Authenticate to update this todo")) ;;
  ret tt.

Definition handleToggleTodo (i : jsstring) : M W unit :=
  liftP (TodoContext.toggleTodo i).

End Hook.

Section Delete.
Context {W : Type} `{Platform W}.

(** [Alert.alert(title, message, buttons)] with handlers, not awaited: the
    call returns at once, whatever the handler of the pressed button does
    later.  A run holds what that handler did; what the handler returned,
    threw or left pending is dropped. *)
Definition alertAndPress (config : AlertConfig unit) : M W unit :=
  fun c =>
    let (pressed, w) := pressButton (device c) in
    let c1 := set_device c w in
    let shown := [EvAlert (alertTitle config) (message config)
                          (map (@text W unit) (buttons config));
                  EvPress pressed] in
    match pressed with
    | None => (Ret tt, c1, shown)
    | Some i =>
        match nth_error (buttons config) i with
        | None => (Ret tt, c1, shown)
        | Some button =>
            let '(_, c2, t) := onPress button c1 in
            (Ret tt, c2, shown ++ t)
        end
    end.

(** The "Cancel" button has no handler: pressing it does nothing. *)
Definition handleDeleteTodo (i : jsstring) : M W unit :=
  alertAndPress
    {| alertTitle := js "Delete Todo";
       message := js "Are you sure you want to delete this todo?";
       buttons :=
         [ {| text := js "Cancel"; style := Some (js "cancel");
              onPress := ret tt |};
           {| text := js "Delete"; style := Some (js "destructive");
              onPress :=
                useAuth.authenticateAndExecute (TodoContext.deleteTodo i)
                  (Some (js "Authenticate to delete this todo")) ;;
                ret tt |} ] |}.

End Delete.
End useTodos.

(* ------------------------------------------------------------------ *)
(** ** The form (components/TodoForm) *)

Module TodoForm.

(** The three pieces of state of the form. *)
Record FormState := mkForm {
  titleField : jsstring;
  descriptionField : jsstring;
  titleError : jsstring
}.

(** What the form hands to [onSubmit]: an object with the keys [title]
    and [description], the latter holding [undefined] for a blank field. *)
Record FormData := mkData {
  d_title : jsstring;
  d_description : option jsstring
}.

(** [validate()]: the verdict and the state it leaves. *)
Definition validate (s : FormState) : bool * FormState :=
  if negb (truthy (trim (titleField s))) then
    (false, {| titleField := titleField s;
               descriptionField := descriptionField s;
               titleError := js "Title is required" |})
  else
    (true, {| titleField := titleField s;
              descriptionField := descriptionField s;
              titleError := [] |}).

(** [description.trim() || undefined] *)
Definition trimmed_or_undefined (d : jsstring) : option jsstring :=
  if truthy (trim d) then Some (trim d) else None.

(** [handleSubmit()]: what is handed to [onSubmit], if anything, and the
    state it leaves. *)
Definition handleSubmit (s : FormState) : option FormData * FormState :=
  let (ok, s1) := validate s in
  if negb ok then (None, s1)
  else
    (Some {| d_title := trim (titleField s);
             d_description := trimmed_or_undefined (descriptionField s) |},
     s1).

(** The object of the form read as a [CreateTodoInput]. *)
Definition asCreate (d : FormData) : CreateTodoInput :=
  {| c_title := d_title d; c_description := d_description d |}.

(** The object of the form read as an [UpdateTodoInput]: both keys are
    present, [completed] is not. *)
Definition asUpdate (d : FormData) : UpdateTodoInput :=
  {| u_title := Some (d_title d);
     u_description := Some (d_description d);
     u_completed := None |}.

End TodoForm.

(* ------------------------------------------------------------------ *)
(** ** The screen (screens/TodoListScreen.tsx) *)

Module TodoListScreen.

(** The two pieces of state of the screen. *)
Record ScreenState := mkScreen {
  isFormVisible : bool;
  editingTodo : option Todo
}.

Section Screen.
Context {W : Type} `{Platform W}.

(** [todos.find(t => t.id === id)] *)
Definition findTodo (i : jsstring) (l : list Todo) : option Todo :=
  find (fun t => strict_eq (id t) i) l.

Definition handleOpenEditForm (i : jsstring) (l : list Todo) (s : ScreenState)
  : ScreenState :=
  match findTodo i l with
  | Some todo => {| isFormVisible := true; editingTodo := Some todo |}
  | None => s
  end.

Definition handleCloseForm : ScreenState :=
  {| isFormVisible := false; editingTodo := None |}.

(** [handleFormSubmit(data)]: the form is closed once the handler of the
    facade has returned. *)
Definition handleFormSubmit (s : ScreenState) (data : TodoForm.FormData)
  : M W ScreenState :=
  match editingTodo s with
  | Some todo => useTodos.handleUpdateTodo (id todo) (TodoForm.asUpdate data)
  | None => useTodos.handleAddTodo (TodoForm.asCreate data)
  end ;;
  ret handleCloseForm.

End Screen.
End TodoListScreen.

(* ------------------------------------------------------------------ *)
(** ** Layout breakpoints (utils/responsive.ts) *)

Module responsive.

(** The width of the window is a finite number; only its comparisons with
    the breakpoints are modelled. *)
Definition isTablet (SCREEN_WIDTH : Q) : bool := Qle_bool 768 SCREEN_WIDTH.

Definition isSmallDevice (SCREEN_WIDTH : Q) : bool :=
  negb (Qle_bool 375 SCREEN_WIDTH).

Definition getNumColumns (SCREEN_WIDTH : Q) : nat :=
  if Qle_bool 1024 SCREEN_WIDTH then 3
  else if Qle_bool 768 SCREEN_WIDTH then 2
  else 1.

End responsive.

(* ------------------------------------------------------------------ *)
(** ** Reading the log *)

(** The calls to the biometric collaborator. *)
Definition is_biometric (e : Event) : bool :=
  match e with
  | EvHasHardware _ | EvIsEnrolled _ | EvSupportedTypes _ | EvChallenge _ _ => true
  | _ => false
  end.

Definition is_challenge (e : Event) : bool :=
  match e with EvChallenge _ _ => true | _ => false end.

Definition is_operation (e : Event) : bool :=
  match e with EvOperation => true | _ => false end.

Definition is_alert (e : Event) : bool :=
  match e with EvAlert _ _ _ => true | _ => false end.

(** How many times the wrapped operation was invoked. *)
Definition invocations (t : list Event) : nat :=
  List.length (filter is_operation t).

(** Every hardware query and every enrollment query of the run was
    answered with [true]. *)
Definition device_ready (t : list Event) : bool :=
  forallb (fun e => match e with
                    | EvHasHardware (Ret true) | EvIsEnrolled (Ret true) => true
                    | EvHasHardware _ | EvIsEnrolled _ => false
                    | _ => true
                    end) t.

(** Some challenge of the run resolved with the given [success]. *)
Definition challenge_resolved (ok : bool) (t : list Event) : bool :=
  existsb (fun e => match e with
                    | EvChallenge _ (Ret r) => Bool.eqb (la_success r) ok
                    | _ => false
                    end) t.

(** The platform challenge was invoked. *)
Definition challenged (t : list Event) : bool := existsb is_challenge t.

(** The events of a query: a call to the biometric collaborator other than
    the challenge, or a line on the console. *)
Definition is_query (e : Event) : bool :=
  match e with
  | EvHasHardware _ | EvIsEnrolled _ | EvSupportedTypes _ | EvConsoleError _ => true
  | _ => false
  end.

(** Some challenge of the run threw. *)
Definition challenge_threw (t : list Event) : bool :=
  existsb (fun e => match e with
                    | EvChallenge _ (Throw _) => true
                    | _ => false
                    end) t.

(** Some availability query of the run threw. *)
Definition availability_threw (t : list Event) : bool :=
  existsb (fun e => match e with
                    | EvHasHardware (Throw _) | EvIsEnrolled (Throw _) => true
                    | _ => false
                    end) t.

Definition operation_threw (t : list Event) : bool :=
  existsb (fun e => match e with EvOperationThrew => true | _ => false end) t.

(** A notice with the given title was shown. *)
Definition noticed (title : jsstring) (t : list Event) : bool :=
  existsb (fun e => match e with
                    | EvAlert ti _ _ => strict_eq ti title
                    | _ => false
                    end) t.

(* ------------------------------------------------------------------ *)
(** ** A scripted device *)

(** A device that gives every call of one kind the same answer, and whose
    clock advances by one millisecond at every reading. *)
Record Device := mkDevice {
  clock : Z;
  hardware : outcome bool;
  enrolled : outcome bool;
  sensors : outcome (list AuthenticationType);
  challenge : outcome LAResult;
  stored : outcome (option jsstring);
  settings : outcome unit;
  pressed : option nat
}.

(** The parser of the scripted device knows one text. *)
Definition parse_scripted (text : jsstring) : outcome (list Todo) :=
  if strict_eq text (js "[]") then Ret []
  else Throw (JsError (js "Unexpected token")).

#[global] Instance scripted : Platform Device := {|
  dateNow := fun d =>
    (clock d,
     {| clock := clock d + 1; hardware := hardware d; enrolled := enrolled d;
        sensors := sensors d; challenge := challenge d; stored := stored d;
        settings := settings d; pressed := pressed d |});
  randomSuffix := fun d => (js "k3j9x0q1z", d);
  platformOS := ios;
  hasHardwareAsync := fun d => (hardware d, d);
  isEnrolledAsync := fun d => (enrolled d, d);
  supportedAuthenticationTypesAsync := fun d => (sensors d, d);
  authenticateAsync := fun _ d => (challenge d, d);
  getItem := fun _ d => (stored d, d);
  jsonParse := parse_scripted;
  openURL := fun _ d => (settings d, d);
  openSettings := fun d => (settings d, d);
  pressButton := fun d => (pressed d, d)
|}.

(** A phone with a face sensor, an enrolled face, a user who passes the
    challenge and presses the second button of dialogs, and empty storage. *)
Definition phone : Device :=
  {| clock := 1000; hardware := Ret true; enrolled := Ret true;
     sensors := Ret [FACIAL_RECOGNITION];
     challenge := Ret {| la_success := true; la_error := None |};
     stored := Ret None; settings := Ret tt; pressed := Some 1%nat |}.

Definition app (s : TodoState) (d : Device) : Core Device :=
  {| store := s; isAvailable := false; isAuthenticating := false;
     biometricType := js "Biometric"; device := d |}.

Definition milk : Todo :=
  {| id := js "1"; title := js "Buy milk"; description := None;
     completed := false; createdAt := 10; updatedAt := 10 |}.

(** A phone on which the hardware query fails and no sensor is reported;
    its user presses the second button of dialogs. *)
Definition faulty : Device :=
  {| clock := 1000; hardware := Throw (JsError (js "sensor service died"));
     enrolled := Ret true; sensors := Ret [];
     challenge := Ret {| la_success := true; la_error := None |};
     stored := Throw (JsError (js "Load failed")); settings := Ret tt;
     pressed := Some 1%nat |}.

(** The phone with a user who fails the challenge. *)
Definition refused : Device :=
  {| clock := 1000; hardware := Ret true; enrolled := Ret true;
     sensors := Ret [FACIAL_RECOGNITION];
     challenge := Ret {| la_success := false;
                         la_error := Some (js "User cancelled") |};
     stored := Ret None; settings := Ret tt; pressed := Some 1%nat |}.

(** The phone with a challenge that throws. *)
Definition crashing : Device :=
  {| clock := 1000; hardware := Ret true; enrolled := Ret true;
     sensors := Ret [FACIAL_RECOGNITION];
     challenge := Throw (JsError (js "prompt crashed"));
     stored := Ret (Some (js "invalid json")); settings := Ret tt;
     pressed := Some 1%nat |}.

(** A phone without a sensor, whose user presses the first button of
    dialogs. *)
Definition cancelling : Device :=
  {| clock := 1000; hardware := Ret false; enrolled := Ret false;
     sensors := Ret [];
     challenge := Ret {| la_success := true; la_error := None |};
     stored := Ret None; settings := Ret tt; pressed := Some 0%nat |}.

(** A phone with a fingerprint sensor and no enrolled biometrics. *)
Definition unenrolled : Device :=
  {| clock := 1000; hardware := Ret true; enrolled := Ret false;
     sensors := Ret [FINGERPRINT];
     challenge := Ret {| la_success := true; la_error := None |};
     stored := Ret None; settings := Ret tt; pressed := Some 1%nat |}.

(** An operation that returns 42, and one that throws. *)
Definition answer : P Device nat := fun c => (Ret 42%nat, c).

Definition failing : P Device nat :=
  fun c => (Throw (JsError (js "write failed")), c).

Definition listed : TodoState :=
  {| todos := [milk]; loading := false; error := None |}.

(** The button at a position was pressed. *)
Definition pressed_button (i : nat) (t : list Event) : bool :=
  existsb (fun e => match e with
                    | EvPress (Some j) => Nat.eqb j i
                    | _ => false
                    end) t.

(** A dialog with a button of the given label was shown. *)
Definition offered (label : jsstring) (t : list Event) : bool :=
  existsb (fun e => match e with
                    | EvAlert _ _ labels => existsb (strict_eq label) labels
                    | _ => false
                    end) t.

(** A query of the sensor types found none, or threw. *)
Definition sensorless (t : list Event) : bool :=
  existsb (fun e => match e with
                    | EvSupportedTypes (Ret []) => true
                    | EvSupportedTypes (Throw _) => true
                    | _ => false
                    end) t.

(** A dialog was shown or a button pressed. *)
Definition is_dialog (e : Event) : bool :=
  match e with EvAlert _ _ _ | EvPress _ => true | _ => false end.

(* ------------------------------------------------------------------ *)
(** ** Devices by their answers *)

(** A device that is ready wherever [S] holds: in every state of [S] it
    reports hardware, reports an enrolled credential, answers the query of
    the sensor types and resolves a challenge with [success = true], and
    its answers to the queries leave it in a state of [S]. *)
Definition ready_device {W} `{Platform W} (S : W -> Prop) : Prop :=
  (forall w, S w ->
     fst (hasHardwareAsync w) = Ret true /\ S (snd (hasHardwareAsync w))) /\
  (forall w, S w ->
     fst (isEnrolledAsync w) = Ret true /\ S (snd (isEnrolledAsync w))) /\
  (forall w, S w ->
     fst (supportedAuthenticationTypesAsync w) <> Pending /\
     S (snd (supportedAuthenticationTypesAsync w))) /\
  (forall options w, S w ->
     exists result, fst (authenticateAsync options w) = Ret result /\
                    la_success result = true).





(* ------------------------------------------------------------------ *)
(** ** A device with a key-value store *)

(** A device without biometric hardware whose storage is a list of
    key-value pairs, the newest first; every access fails while [broken]
    is set. *)
Record Disk := mkDisk {
  files : list (jsstring * jsstring);
  broken : bool;
  ticks : Z
}.

Fixpoint lookup (key : jsstring) (l : list (jsstring * jsstring))
  : option jsstring :=
  match l with
  | [] => None
  | (k, v) :: rest => if strict_eq k key then Some v else lookup key rest
  end.

Definition io_error : exn := JsError (js "storage unavailable").

(** The text the disk's [JSON.stringify] gives the one-item list of
    [milk], and its [JSON.parse]. *)
Definition stringify_disk (l : list Todo) : jsstring :=
  match l with
  | [] => js "[]"
  | _ :: _ => js "[milk]"
  end.

Definition parse_disk (text : jsstring) : outcome (list Todo) :=
  if strict_eq text (js "[]") then Ret []
  else if strict_eq text (js "[milk]") then Ret [milk]
  else Throw (JsError (js "Unexpected token")).

#[global] Instance disk_platform : Platform Disk := {|
  dateNow := fun d =>
    (ticks d, {| files := files d; broken := broken d; ticks := ticks d + 1 |});
  randomSuffix := fun d => (js "a1b2c3d4e", d);
  platformOS := android;
  hasHardwareAsync := fun d => (Ret false, d);
  isEnrolledAsync := fun d => (Ret false, d);
  supportedAuthenticationTypesAsync := fun d => (Ret [], d);
  authenticateAsync := fun _ d =>
    (Ret {| la_success := false; la_error := None |}, d);
  getItem := fun key d =>
    if broken d then (Throw io_error, d) else (Ret (lookup key (files d)), d);
  jsonParse := parse_disk;
  openURL := fun _ d => (Ret tt, d);
  openSettings := fun d => (Ret tt, d);
  pressButton := fun d => (Some 0%nat, d)
|}.

#[global] Instance disk_storage : Storage Disk := {|
  setItem := fun key value d =>
    if broken d then (Throw io_error, d)
    else (Ret tt, {| files := (key, value) :: files d;
                     broken := false; ticks := ticks d |});
  removeItem := fun key d =>
    if broken d then (Throw io_error, d)
    else (Ret tt,
          {| files := filter (fun kv => negb (strict_eq (fst kv) key)) (files d);
             broken := false; ticks := ticks d |});
  clear := fun d =>
    if broken d then (Throw io_error, d)
    else (Ret tt, {| files := []; broken := false; ticks := ticks d |});
  jsonStringify := stringify_disk
|}.

Definition fresh_disk : Disk := {| files := []; broken := false; ticks := 0 |}.

Definition broken_disk : Disk := {| files := []; broken := true; ticks := 0 |}.

Definition on_disk (s : TodoState) (d : Disk) : Core Disk :=
  {| store := s; isAvailable := false; isAuthenticating := false;
     biometricType := js "Biometric"; device := d |}.

(* ================================================================== *)
(** * Properties *)

(* ------------------------------------------------------------------ *)
(** ** Strings *)

Lemma strict_eq_true (a b : jsstring) : strict_eq a b = true <-> a = b.
Proof.
  revert b; induction a as [|x a IH]; intros [|y b]; simpl; split;
    try congruence; try discriminate.
  - intros E. apply andb_true_iff in E as [E1 E2].
    apply N.eqb_eq in E1. apply IH in E2. congruence.
  - intros E. injection E as -> ->.
    rewrite N.eqb_refl. simpl. apply IH. reflexivity.
Qed.

Lemma strict_eq_refl (a : jsstring) : strict_eq a a = true.
Proof. apply strict_eq_true. reflexivity. Qed.

Lemma strict_eq_false (a b : jsstring) : strict_eq a b = false <-> a <> b.
Proof.
  split.
  - intros E ->. rewrite strict_eq_refl in E. discriminate.
  - intros N. destruct (strict_eq a b) eqn:E; [|reflexivity].
    apply strict_eq_true in E. contradiction.
Qed.

(* ------------------------------------------------------------------ *)
(** ** The reducer *)

Section ReducerFacts.
Context {W : Type} `{Platform W}.

(** A map whose function leaves every element of the list and the clock
    alone returns the list and the clock. *)
Lemma map_now_fixes (f : Todo -> W -> Todo * W) (l : list Todo) (w : W) :
  (forall t, In t l -> forall w', f t w' = (t, w')) ->
  map_now f l w = (l, w).
Proof.
  induction l as [|t l IH]; intros Hf; simpl; [reflexivity|].
  rewrite (Hf t (or_introl eq_refl)).
  rewrite IH; [reflexivity|]. intros t' Ht'. apply Hf. right. exact Ht'.
Qed.

Lemma filter_keeps_all (p : Todo -> bool) (l : list Todo) :
  (forall t, In t l -> p t = true) -> filter p l = l.
Proof.
  induction l as [|t l IH]; intros Hp; simpl; [reflexivity|].
  rewrite (Hp t (or_introl eq_refl)). f_equal.
  apply IH. intros t' Ht'. apply Hp. right. exact Ht'.
Qed.

Lemma absent_id (i : jsstring) (l : list Todo) (t : Todo) :
  ~ In i (map id l) -> In t l -> strict_eq (id t) i = false.
Proof.
  intros Habs Ht. apply strict_eq_false. intros E. apply Habs.
  rewrite <- E. apply in_map. exact Ht.
Qed.

(** C2, as amended.  For an id that no item of the list carries, [update],
    [remove] and [toggleCompleted] return the items and [loading] as they
    were and do not read the clock; [lastError] is null afterwards, whatever
    it was before. *)
Theorem unknown_id_keeps_items
    (s : TodoState) (i : jsstring) (updates : UpdateTodoInput) (w : W) :
  ~ In i (map id (todos s)) ->
  let kept := {| todos := todos s; loading := loading s; error := None |} in
  todoReducer s (UPDATE_TODO i updates) w = (kept, w) /\
  todoReducer s (DELETE_TODO i) w = (kept, w) /\
  todoReducer s (TOGGLE_TODO i) w = (kept, w).
Proof.
  intros Habs kept. unfold kept. simpl. repeat split.
  - rewrite map_now_fixes; [reflexivity|].
    intros t Ht w'. unfold update_one. now rewrite (@absent_id i _ _ Habs Ht).
  - rewrite filter_keeps_all; [reflexivity|].
    intros t Ht. now rewrite (@absent_id i _ _ Habs Ht).
  - rewrite map_now_fixes; [reflexivity|].
    intros t Ht w'. unfold toggle_one. now rewrite (@absent_id i _ _ Habs Ht).
Qed.

(** One toggle of a list: items of another id are kept, items of the id
    have [completed] negated and [updatedAt] replaced, and the new values
    of [updatedAt] are the successive readings of the clock. *)
Lemma toggle_list (i : jsstring) (l : list Todo) (w : W) :
  let hit := fun t => strict_eq (id t) i in
  let l1 := fst (map_now (toggle_one i) l w) in
  Forall2 (fun t t1 =>
             if hit t
             then t1 = with_updatedAt (with_completed t (negb (completed t)))
                                      (updatedAt t1)
             else t1 = t) l l1 /\
  map updatedAt (filter hit l1) = readings (List.length (filter hit l)) w.
Proof.
  simpl. revert w. induction l as [|t l IH]; intros w; simpl.
  - split; [constructor | reflexivity].
  - unfold toggle_one at 1 3. destruct (strict_eq (id t) i) eqn:E.
    + destruct (dateNow w) as [now w1] eqn:Enow.
      specialize (IH w1). destruct (map_now (toggle_one i) l w1) as [l1 w2].
      simpl in *. rewrite E. simpl. rewrite Enow.
      destruct IH as [IH1 IH2]. split.
      * constructor; [rewrite E; reflexivity | exact IH1].
      * f_equal. exact IH2.
    + specialize (IH w). destruct (map_now (toggle_one i) l w) as [l1 w2].
      simpl in *. rewrite E. destruct IH as [IH1 IH2]. split.
      * constructor; [rewrite E; reflexivity | exact IH1].
      * exact IH2.
Qed.

(** A toggled list carries the ids of the list it was made from. *)
Lemma toggle_list_ids (i : jsstring) (l : list Todo) (w : W) :
  map id (fst (map_now (toggle_one i) l w)) = map id l.
Proof.
  revert w. induction l as [|t l IH]; intros w; simpl; [reflexivity|].
  unfold toggle_one at 1. destruct (strict_eq (id t) i).
  - destruct (dateNow w) as [now w1]. specialize (IH w1).
    destruct (map_now (toggle_one i) l w1). simpl in *. now f_equal.
  - specialize (IH w).
    destruct (map_now (toggle_one i) l w). simpl in *. now f_equal.
Qed.

Lemma filter_by_id_length (p : jsstring -> bool) (l l' : list Todo) :
  map id l' = map id l ->
  List.length (filter (fun t => p (id t)) l')
  = List.length (filter (fun t => p (id t)) l).
Proof.
  revert l'. induction l as [|t l IH]; intros [|t' l'] E; simpl in *;
    try discriminate; [reflexivity|].
  injection E as E1 E2. rewrite E1.
  destruct (p (id t)); simpl; [f_equal|]; now apply IH.
Qed.

(** Two toggles in a row, item by item. *)
Lemma toggle_back (i : jsstring) (l l1 l2 : list Todo) :
  let hit := fun t => strict_eq (id t) i in
  let toggled := fun t t1 =>
    if hit t
    then t1 = with_updatedAt (with_completed t (negb (completed t))) (updatedAt t1)
    else t1 = t in
  Forall2 toggled l l1 -> Forall2 toggled l1 l2 ->
  Forall2 (fun t t2 => if hit t then t2 = with_updatedAt t (updatedAt t2)
                       else t2 = t) l l2.
Proof.
  simpl. intros F1. revert l2.
  induction F1 as [|t t1 l l1 R1 F1 IH]; intros l2 F2; inversion F2; subst.
  - constructor.
  - constructor; [|now apply IH].
    destruct (strict_eq (id t) i) eqn:E.
    + rewrite R1 in H2. simpl in H2. rewrite E in H2.
      rewrite H2. simpl. rewrite negb_involutive. destruct t; reflexivity.
    + subst t1. rewrite E in H2. exact H2.
Qed.

(** C8, as amended.  Two toggles of one id give back every item with all
    its fields but [updatedAt]: items of another id are untouched, items of
    the id have [completed] negated by the first toggle and negated back by
    the second, and each toggle sets their [updatedAt] to the readings of
    the clock it takes.  [loading] is kept and [lastError] is null. *)
Theorem toggle_twice (s : TodoState) (i : jsstring) (w : W) :
  let hit := fun t => strict_eq (id t) i in
  let n := List.length (filter hit (todos s)) in
  let (s1, w1) := todoReducer s (TOGGLE_TODO i) w in
  let (s2, w2) := todoReducer s1 (TOGGLE_TODO i) w1 in
  Forall2 (fun t t1 =>
             if hit t
             then t1 = with_updatedAt (with_completed t (negb (completed t)))
                                      (updatedAt t1)
             else t1 = t) (todos s) (todos s1) /\
  Forall2 (fun t t2 => if hit t then t2 = with_updatedAt t (updatedAt t2)
                       else t2 = t) (todos s) (todos s2) /\
  loading s2 = loading s /\ error s2 = None /\
  map updatedAt (filter hit (todos s1)) = readings n w /\
  map updatedAt (filter hit (todos s2)) = readings n w1.
Proof.
  simpl.
  pose proof (toggle_list i (todos s) w) as T1.
  pose proof (toggle_list_ids i (todos s) w) as I1.
  destruct (map_now (toggle_one i) (todos s) w) as [l1 w1]. simpl in *.
  pose proof (toggle_list i l1 w1) as T2.
  destruct (map_now (toggle_one i) l1 w1) as [l2 w2]. simpl in *.
  destruct T1 as [F1 R1]. destruct T2 as [F2 R2].
  rewrite (filter_by_id_length (fun x => strict_eq x i) _ _ I1) in R2.
  repeat split; try assumption.
  exact (toggle_back i F1 F2).
Qed.

End ReducerFacts.

(** C2, at a state whose [lastError] is set. *)
Lemma unknown_id_keeps_items_witness :
  let s := {| todos := [milk]; loading := false;
              error := Some (js "Failed to load todos") |} in
  let kept := {| todos := [milk]; loading := false; error := None |} in
  ~ In (js "2") (map id (todos s)) /\
  todoReducer s (UPDATE_TODO (js "2") (mkUpdate (Some (js "Tea")) None None)) phone
    = (kept, phone) /\
  todoReducer s (DELETE_TODO (js "2")) phone = (kept, phone) /\
  todoReducer s (TOGGLE_TODO (js "2")) phone = (kept, phone).
Proof.
  intros s kept.
  assert (A : ~ In (js "2") (map id (todos s))).
  { simpl. intros [E | []]. discriminate E. }
  split; [exact A|].
  exact (@unknown_id_keeps_items Device scripted s (js "2")
           (mkUpdate (Some (js "Tea")) None None) phone A).
Defined.

(** C2, as stated, fails: an unknown id does change the state when
    [lastError] was set, for each of the three operations. *)
Lemma unknown_id_clears_lastError :
  let s := {| todos := [milk]; loading := false;
              error := Some (js "Failed to load todos") |} in
  ~ In (js "2") (map id (todos s)) /\
  fst (todoReducer s (UPDATE_TODO (js "2") (mkUpdate (Some (js "Tea")) None None)) phone) <> s /\
  fst (todoReducer s (DELETE_TODO (js "2")) phone) <> s /\
  fst (todoReducer s (TOGGLE_TODO (js "2")) phone) <> s.
Proof.
  simpl. repeat split; try discriminate.
  intros [E | []]. discriminate E.
Qed.

(** C8, as stated, fails at a state whose [lastError] is set: after two
    toggles the message is gone, so the state is not the original one
    whatever the [updatedAt] of its items. *)
Lemma toggle_twice_clears_lastError :
  let s := fst (todoReducer listed
                  (SET_ERROR (Some (js "Failed to load todos"))) phone) in
  let s1 := todoReducer s (TOGGLE_TODO (js "1")) phone in
  let s2 := fst (todoReducer (fst s1) (TOGGLE_TODO (js "1")) (snd s1)) in
  In (js "1") (map id (todos s)) /\
  error s = Some (js "Failed to load todos") /\
  error s2 = None /\
  forall items,
    s2 <> {| todos := items; loading := loading s; error := error s |}.
Proof.
  simpl. split; [left; reflexivity|]. repeat split. intros items E.
  discriminate E.
Qed.

(* ------------------------------------------------------------------ *)
(** ** The provider *)

Section ProviderFacts.
Context {W : Type} `{Platform W}.

Lemma add_todo_prepends (s : TodoState) (t : Todo) (w : W) :
  todoReducer s (ADD_TODO t) w
  = ({| todos := t :: todos s; loading := loading s; error := None |}, w).
Proof. reflexivity. Qed.

(** What one [addTodo] does: it builds the item and puts it in front. *)
Lemma addTodo_run (input : CreateTodoInput) (c : Core W) :
  TodoContext.addTodo input c
  = (Ret tt,
     {| store := {| todos := fst (TodoContext.newTodo input (device c))
                             :: todos (store c);
                    loading := loading (store c); error := None |};
        isAvailable := isAvailable c;
        isAuthenticating := isAuthenticating c;
        biometricType := biometricType c;
        device := snd (TodoContext.newTodo input (device c)) |}).
Proof.
  unfold TodoContext.addTodo, TodoContext.dispatch.
  destruct (TodoContext.newTodo input (device c)) as [t w]. reflexivity.
Qed.

Lemma newTodo_fields (input : CreateTodoInput) (w : W) :
  let t := fst (TodoContext.newTodo input w) in
  title t = trim (c_title input) /\
  description t = option_map trim (c_description input) /\
  completed t = false.
Proof.
  unfold TodoContext.newTodo.
  destruct (dateNow w) as [t0 w1]. destruct (randomSuffix w1) as [sfx w2].
  destruct (dateNow w2) as [t1 w3]. destruct (dateNow w3) as [t2 w4].
  simpl. auto.
Qed.

(** C9.  Every create puts the new item in front of the list, so creating
    A, then B, then C gives the items of C, B and A, in this order, in
    front of the items that were there; each new item has the trimmed
    title of its input. *)
Theorem create_order (c : Core W) (a b d : CreateTodoInput) :
  let ra := TodoContext.addTodo a c in
  let rb := TodoContext.addTodo b (snd ra) in
  let rd := TodoContext.addTodo d (snd rb) in
  let ta := fst (TodoContext.newTodo a (device c)) in
  let tb := fst (TodoContext.newTodo b (device (snd ra))) in
  let td := fst (TodoContext.newTodo d (device (snd rb))) in
  fst ra = Ret tt /\ fst rb = Ret tt /\ fst rd = Ret tt /\
  todos (store (snd ra)) = ta :: todos (store c) /\
  todos (store (snd rb)) = tb :: todos (store (snd ra)) /\
  todos (store (snd rd)) = td :: todos (store (snd rb)) /\
  todos (store (snd rd)) = [td; tb; ta] ++ todos (store c) /\
  title ta = trim (c_title a) /\
  title tb = trim (c_title b) /\
  title td = trim (c_title d).
Proof.
  cbv zeta. repeat rewrite addTodo_run. simpl.
  repeat split; apply newTodo_fields.
Qed.

End ProviderFacts.

(* ------------------------------------------------------------------ *)
(** ** Running programs *)

Arguments js : simpl never.

Ltac run_prog :=
  unfold bind, ret, catch, raise, Monad_M, MonadExc_M,
         m_bind, m_ret, m_catch, m_raise, m_finally, call, log,
         console_error, alert, settle, liftP, invoke,
         getIsAvailable, setIsAvailable, setIsAuthenticating, setBiometricType;
  simpl.

(** Case analysis on the answers of the device, innermost call first. *)
Ltac split_run :=
  repeat match goal with
         | |- context [nth_error _ ?i] => is_var i; destruct i; simpl
         | |- context [negb ?b] => is_var b; destruct b; simpl
         | |- context [match ?x with _ => _ end] =>
             lazymatch x with
             | context [match _ with _ => _ end] => fail
             | _ => destruct x eqn:?; simpl
             end
         end.

Ltac close_run :=
  simpl in *;
  repeat match goal with
         | H : _ \/ _ |- _ => destruct H
         | H : _ /\ _ |- _ => destruct H
         | H : False |- _ => destruct H
         | H : @eq Event _ _ |- _ =>
             first [discriminate H | inversion H; subst; clear H]
         | H : @eq bool _ _ |- _ => discriminate H
         end;
  try reflexivity; try discriminate; try congruence;
  try (repeat match goal with
              | H : ?x = _ |- context [?x] => rewrite H
              end; simpl; reflexivity).

(** What a log of queries cannot contain. *)
Lemma queries_only (t : list Event) :
  forallb is_query t = true ->
  invocations t = 0%nat /\ challenged t = false /\
  challenge_threw t = false /\ operation_threw t = false /\
  (forall ok, challenge_resolved ok t = false) /\
  (forall title, noticed title t = false).
Proof.
  unfold invocations, challenged, challenge_threw, operation_threw,
    challenge_resolved, noticed.
  induction t as [|e t IH]; simpl; intros Q; [repeat split; reflexivity|].
  apply andb_true_iff in Q as [Qe Qt].
  destruct (IH Qt) as (I1 & I2 & I3 & I4 & I5 & I6).
  destruct e; try discriminate Qe; simpl; repeat split; auto.
Qed.

Section ServiceFacts.
Context {W : Type} `{Platform W}.

Lemma isBiometricAvailable_run (c : Core W) :
  let '(r, c', t) := biometricService.isBiometricAvailable c in
  is_throw r = false /\ store c' = store c /\ forallb is_query t = true /\
  (r = Ret true -> availability_threw t = false).
Proof.
  unfold biometricService.isBiometricAvailable. run_prog.
  split_run; repeat split; intros; close_run.
Qed.

Lemma getSupportedAuthenticationTypes_run (c : Core W) :
  let '(r, c', t) := biometricService.getSupportedAuthenticationTypes c in
  is_throw r = false /\ store c' = store c /\ forallb is_query t = true /\
  availability_threw t = false.
Proof.
  unfold biometricService.getSupportedAuthenticationTypes. run_prog.
  split_run; repeat split; intros; close_run.
Qed.

Lemma getBiometricTypeName_run (c : Core W) :
  let '(r, c', t) := biometricService.getBiometricTypeName c in
  is_throw r = false /\ store c' = store c /\ forallb is_query t = true /\
  availability_threw t = false.
Proof.
  unfold biometricService.getBiometricTypeName. run_prog.
  pose proof (getSupportedAuthenticationTypes_run c) as F.
  destruct (biometricService.getSupportedAuthenticationTypes c) as [[[types|e|] c1] t];
    simpl in *.
  - split_run; rewrite app_nil_r; exact F.
  - exact F.
  - exact F.
Qed.

Lemma hasBiometricHardwareButNotEnrolled_run (c : Core W) :
  let '(r, c', t) := biometricService.hasBiometricHardwareButNotEnrolled c in
  is_throw r = false /\ store c' = store c /\ forallb is_query t = true.
Proof.
  unfold biometricService.hasBiometricHardwareButNotEnrolled. run_prog.
  split_run; repeat split; intros; close_run.
Qed.

Lemma authenticate_run (prompt : option jsstring) (c : Core W) :
  let '(r, c', t) := biometricService.authenticate prompt c in
  is_throw r = false /\ store c' = store c /\
  invocations t = 0%nat /\ operation_threw t = false /\
  (forall title, noticed title t = false) /\
  (availability_threw t = true -> challenged t = false) /\
  match r with
  | Ret a =>
      if Auth.success a
      then challenge_resolved false t = false /\ challenge_threw t = false
      else challenge_resolved true t = false
  | _ => (forall ok, challenge_resolved ok t = false) /\ challenge_threw t = false
  end.
Proof.
  unfold biometricService.authenticate, biometricService.isBiometricAvailable.
  run_prog.
  split_run; repeat split; intros; close_run.
Qed.
End ServiceFacts.

Ltac open_log :=
  unfold invocations, challenged, challenge_threw, operation_threw,
    challenge_resolved, noticed, availability_threw, device_ready in *.

Ltac split_hyps :=
  repeat match goal with
         | H : _ /\ _ |- _ => destruct H
         | H : @eq bool _ _ |- _ => discriminate H
         | H : Ret _ = Ret _ -> _ |- _ => specialize (H eq_refl)
         | H : true = true -> _ |- _ => specialize (H eq_refl)
         | H : ?a = ?a -> _ |- _ => specialize (H eq_refl)
         end.

Ltac rewrite_log :=
  repeat (rewrite ?existsb_app, ?forallb_app, ?filter_app, ?length_app in *;
          simpl in *);
  repeat match goal with
         | H : forall _ : bool, existsb _ ?t = _ |- context [existsb _ ?t] =>
             rewrite H
         | H : forall _ : jsstring, existsb _ ?t = _ |- context [existsb _ ?t] =>
             rewrite H
         | H : existsb _ ?t = _ |- context [existsb _ ?t] => rewrite H
         | H : List.length (filter _ ?t) = _ |- context [List.length (filter _ ?t)] =>
             rewrite H
         end; simpl.

Lemma not_challenged (t : list Event) :
  challenged t = false ->
  challenge_threw t = false /\ forall ok, challenge_resolved ok t = false.
Proof.
  unfold challenged, challenge_threw, challenge_resolved.
  induction t as [|e t IH]; simpl; intros Q; [split; reflexivity|].
  apply orb_false_iff in Q as [Qe Qt]. destruct (IH Qt) as [I1 I2].
  destruct e; try discriminate Qe; simpl; split; auto.
Qed.

Section GateFacts.
Context {W : Type} `{Platform W}.

Lemma getBiometricStatus_run (c : Core W) :
  let '(r, c', t) := useAuth.getBiometricStatus c in
  is_throw r = false /\ store c' = store c /\ forallb is_query t = true.
Proof.
  unfold useAuth.getBiometricStatus, useAuth.promiseAll. run_prog.
  pose proof (getSupportedAuthenticationTypes_run c) as F1.
  destruct (biometricService.getSupportedAuthenticationTypes c) as [[[types|e|] c1] t1];
    simpl in *; split_hyps;
    pose proof (hasBiometricHardwareButNotEnrolled_run c1) as F2;
    destruct (biometricService.hasBiometricHardwareButNotEnrolled c1) as [[[b|e|] c2] t2];
    simpl in *; split_hyps; rewrite ?app_nil_r, ?forallb_app;
    repeat split; try congruence; try (apply andb_true_iff; split; assumption).
Qed.

Lemma executeOperationWithoutAuth_run {T} (operation : P W T) (c : Core W) :
  let '(r, c', t) := useAuth.executeOperationWithoutAuth operation c in
  is_throw r = false /\ challenged t = false /\
  (operation_threw t = true -> r = Ret None /\ noticed (js "Error") t = true).
Proof.
  unfold useAuth.executeOperationWithoutAuth. run_prog.
  destruct (operation c) as [[v|e|] c1]; simpl; repeat split; intros; close_run.
Qed.

Lemma handleBiometricNotAvailable_run {T} (operation : P W T)
    (name : jsstring) (c : Core W) :
  let '(r, c', t) := useAuth.handleBiometricNotAvailable operation name c in
  is_throw r = false /\ challenged t = false /\
  (operation_threw t = true -> r = Ret None /\ noticed (js "Error") t = true).
Proof.
  unfold useAuth.handleBiometricNotAvailable, useAuth.promiseOfAlert,
    useAuth.generateAlertConfig, useAuth.openAppSettings,
    useAuth.executeOperationWithoutAuth.
  run_prog.
  pose proof (getBiometricStatus_run c) as F.
  destruct (useAuth.getBiometricStatus c) as [[[[hw en]|e|] c1] t1];
    simpl in *; split_hyps.
  2:{ apply queries_only in H2. split_hyps. repeat split; congruence. }
  apply queries_only in H2. split_hyps.
  destruct hw, en; simpl.
  all: split_run; open_log; rewrite_log;
    repeat split; intros; try discriminate; try reflexivity.
Qed.








End GateFacts.

(* ------------------------------------------------------------------ *)
(** ** The biometric service on its own *)

Section AuthenticateFacts.
Context {W : Type} `{Platform W}.

(** C10.  [authenticate] never throws, and what it returns follows from
    the answers of the device.  It queries the hardware first, then the
    enrollment, and prompts only when both answered [true]: when the
    hardware is absent, nothing is enrolled, or one of the two queries
    throws, it returns a failure with the message that biometric
    authentication is not available, and the platform challenge is not
    invoked.  When both answered [true] it makes one challenge, with the
    prompt: a challenge that resolves gives its verdict, a challenge that
    throws gives a failure with the message of the error, or with the
    message of an unknown error when the thrown value is not an [Error]. *)
Theorem authenticate_guarded (prompt : option jsstring) (c : Core W) :
  let said := match prompt with
              | Some m => m
              | None => js "Authenticate to continue"
              end in
  let hardware := hasHardwareAsync (device c) in
  let enrollment := isEnrolledAsync (snd hardware) in
  let prompted :=
    authenticateAsync (biometricService.challengeOptions said) (snd enrollment) in
  let unavailable :=
    Ret {| Auth.success := false;
           Auth.error := Some (js "Biometric authentication is not available on this device") |} in
  let '(r, _, t) := biometricService.authenticate prompt c in
  is_throw r = false /\
  hd_error t = Some (EvHasHardware (fst hardware)) /\
  match fst hardware with
  | Ret true =>
      match fst enrollment with
      | Ret true =>
          filter is_biometric t
          = [EvHasHardware (Ret true); EvIsEnrolled (Ret true);
             EvChallenge (biometricService.challengeOptions said) (fst prompted)] /\
          r = match fst prompted with
              | Ret result =>
                  Ret (if la_success result
                       then {| Auth.success := true; Auth.error := None |}
                       else {| Auth.success := false;
                               Auth.error :=
                                 Some (or_else (la_error result)
                                               (js "Authentication failed")) |})
              | Throw e =>
                  Ret {| Auth.success := false;
                         Auth.error := Some (match e with
                                             | JsError m => m
                                             | JsValue => js "Unknown authentication error"
                                             end) |}
              | Pending => Pending
              end
      | Ret false | Throw _ => r = unavailable /\ challenged t = false
      | Pending => r = Pending /\ challenged t = false
      end
  | Ret false | Throw _ => r = unavailable /\ challenged t = false
  | Pending => r = Pending /\ challenged t = false
  end.
Proof.
  cbv zeta.
  unfold biometricService.authenticate, biometricService.isBiometricAvailable.
  run_prog.
  destruct (hasHardwareAsync (device c)) as [[[|]|e1|] w1]; simpl;
    try (repeat split; reflexivity).
  destruct (isEnrolledAsync w1) as [[[|]|e2|] w2]; simpl;
    try (repeat split; reflexivity).
  destruct (authenticateAsync _ w2) as [[[[|] err]|e3|] w3]; simpl;
    repeat split; reflexivity.
Qed.

End AuthenticateFacts.

(* ------------------------------------------------------------------ *)
(** ** Restore *)

Section RestoreFacts.
Context {W : Type} `{Platform W}.

Lemma storage_loadTodos_never_throws (c : Core W) :
  is_throw (fst (fst (storageService.loadTodos c))) = false.
Proof.
  unfold storageService.loadTodos. run_prog. split_run; reflexivity.
Qed.

(** C1, what the code does.  [restore] does not throw.  It ends with
    [loading = false] and the stored items when the read and the parse
    succeed, and with the empty list when nothing is stored; when the read
    or the parse fails it ends with the empty list and [loading = false]
    as well, and [lastError] is null in every case: the storage service has
    already turned the failure into an empty list, so the provider's
    handler, which would set the message, never runs. *)
Theorem restore_outcome (w : W) :
  let done := fun items => {| todos := items; loading := false; error := None |} in
  match fst (getItem storageService.TODOS w) with
  | Ret None => TodoContext.restore w = (Ret tt, done [])
  | Ret (Some text) =>
      match jsonParse text with
      | Ret items => TodoContext.restore w = (Ret tt, done items)
      | Throw _ => TodoContext.restore w = (Ret tt, done [])
      | Pending => fst (TodoContext.restore w) = Pending
      end
  | Throw _ => TodoContext.restore w = (Ret tt, done [])
  | Pending => fst (TodoContext.restore w) = Pending
  end.
Proof.
  unfold TodoContext.restore, TodoContext.loadTodos, TodoContext.dispatch,
    storageService.loadTodos.
  run_prog.
  destruct (getItem storageService.TODOS w) as [[[text|]|e|] w1]; simpl;
    try reflexivity.
  destruct (jsonParse text) as [items|e|]; reflexivity.
Qed.

End RestoreFacts.

(** C1, at a read that fails and at a text that does not parse: the list
    is empty, [loading] is false, and no message is set. *)
Lemma restore_failure_sets_no_error :
  TodoContext.restore faulty
  = (Ret tt, {| todos := []; loading := false; error := None |}) /\
  TodoContext.restore crashing
  = (Ret tt, {| todos := []; loading := false; error := None |}).
Proof. split; reflexivity. Qed.

(* ------------------------------------------------------------------ *)
(** ** The facade *)

Section FacadeFacts.
Context {W : Type} `{Platform W}.

(** C6.  The toggle intent is the store transition and nothing else: it
    returns, its log is empty, so the biometric collaborator is not called
    (no availability check, no status query, no challenge) and no dialog is
    shown, and the store and the clock are those the reducer leaves. *)
Theorem toggle_bypasses_gate (i : jsstring) (c : Core W) :
  let '(r, c', t) := useTodos.handleToggleTodo i c in
  r = Ret tt /\ t = [] /\ filter is_biometric t = [] /\
  (store c', device c') = todoReducer (store c) (TOGGLE_TODO i) (device c) /\
  isAvailable c' = isAvailable c /\
  isAuthenticating c' = isAuthenticating c /\
  biometricType c' = biometricType c.
Proof.
  unfold useTodos.handleToggleTodo, TodoContext.toggleTodo,
    TodoContext.dispatch, liftP.
  destruct (todoReducer (store c) (TOGGLE_TODO i) (device c)) as [s w].
  simpl. repeat split.
Qed.

(** C7.  A create whose title is empty once trimmed is turned down with
    the validation notice and nothing else happens: the log holds the
    notice alone, so the gate and the biometric collaborator are not
    called, and the state, the items with it, is the one before. *)
Theorem empty_title_rejected (input : CreateTodoInput) (c : Core W) :
  trim (c_title input) = [] ->
  useTodos.handleAddTodo input c
  = (Ret tt, c,
     [EvAlert (js "Invalid Input") (js "Please enter a title for the todo") []]).
Proof.
  intros E. unfold useTodos.handleAddTodo. rewrite E. reflexivity.
Qed.

End FacadeFacts.

(* ------------------------------------------------------------------ *)
(** ** Runs on the scripted device *)

(** C7, for a title of three blanks. *)
Lemma empty_title_rejected_witness :
  trim (js "   ") = [] /\
  useTodos.handleAddTodo {| c_title := js "   "; c_description := None |}
                         (app listed phone)
  = (Ret tt, app listed phone,
     [EvAlert (js "Invalid Input") (js "Please enter a title for the todo") []]).
Proof.
  split; [reflexivity|].
  apply (@empty_title_rejected Device scripted
           {| c_title := js "   "; c_description := None |} (app listed phone)).
  reflexivity.
Defined.



(** C10, on the faulty phone, whose hardware query throws, on the phone
    without enrolled biometrics, and on the phone whose challenge
    throws. *)
Lemma authenticate_guarded_witness :
  (let '(r, _, t) := biometricService.authenticate None (app listed faulty) in
   availability_threw t = true /\
   r = Ret {| Auth.success := false;
              Auth.error := Some (js "Biometric authentication is not available on this device") |} /\
   challenged t = false) /\
  (let '(r, _, t) := biometricService.authenticate None (app listed unenrolled) in
   r = Ret {| Auth.success := false;
              Auth.error := Some (js "Biometric authentication is not available on this device") |} /\
   challenged t = false) /\
  (let '(r, _, t) := biometricService.authenticate None (app listed crashing) in
   challenged t = true /\
   r = Ret {| Auth.success := false; Auth.error := Some (js "prompt crashed") |}).
Proof.
  pose proof (@authenticate_guarded Device scripted None (app listed faulty)) as G1.
  pose proof (@authenticate_guarded Device scripted None (app listed unenrolled)) as G2.
  pose proof (@authenticate_guarded Device scripted None (app listed crashing)) as G3.
  vm_compute in G1, G2, G3. vm_compute.
  destruct G1 as (_ & _ & G1 & G1'). destruct G2 as (_ & _ & G2 & G2').
  destruct G3 as (_ & _ & _ & G3).
  repeat split; assumption.
Defined.

(* ================================================================== *)
(** * Further properties of the store *)

Section StoreFacts.
Context {W : Type} `{Platform W}.

(** A relation that the element function establishes holds item by item
    between a list and its image. *)
Lemma map_now_pointwise (R : Todo -> Todo -> Prop)
    (f : Todo -> W -> Todo * W) (l : list Todo) (w : W) :
  (forall t w', R t (fst (f t w'))) ->
  Forall2 R l (fst (map_now f l w)).
Proof.
  intros Hf. revert w. induction l as [|t l IH]; intros w; simpl.
  - constructor.
  - pose proof (Hf t w) as Ht. destruct (f t w) as [t1 w1].
    specialize (IH w1). destruct (map_now f l w1) as [l1 w2].
    simpl in *. constructor; assumption.
Qed.

Lemma Forall2_map_eq {A} (g : Todo -> A) (l l1 : list Todo) :
  Forall2 (fun t t1 => g t1 = g t) l l1 -> map g l1 = map g l.
Proof.
  induction 1 as [|t t1 l l1 E F IH]; simpl; [reflexivity|]. now f_equal.
Qed.

Lemma update_one_keeps (i : jsstring) (u : UpdateTodoInput) (t : Todo) (w : W) :
  id (fst (update_one i u t w)) = id t /\
  createdAt (fst (update_one i u t w)) = createdAt t.
Proof.
  unfold update_one. destruct (strict_eq (id t) i); [|split; reflexivity].
  destruct (dateNow w). split; reflexivity.
Qed.

Lemma toggle_one_keeps (i : jsstring) (t : Todo) (w : W) :
  id (fst (toggle_one i t w)) = id t /\
  createdAt (fst (toggle_one i t w)) = createdAt t /\
  title (fst (toggle_one i t w)) = title t /\
  description (fst (toggle_one i t w)) = description t.
Proof.
  unfold toggle_one. destruct (strict_eq (id t) i); [|repeat split].
  destruct (dateNow w). repeat split.
Qed.

Lemma update_toggle_keep_shape_ids
    (s : TodoState) (i : jsstring) (u : UpdateTodoInput) (w : W) :
  map id (todos (fst (todoReducer s (UPDATE_TODO i u) w))) = map id (todos s) /\
  map id (todos (fst (todoReducer s (TOGGLE_TODO i) w))) = map id (todos s).
Proof.
  simpl.
  assert (U : map id (fst (map_now (update_one i u) (todos s) w))
              = map id (todos s)).
  { apply Forall2_map_eq, map_now_pointwise. intros; apply update_one_keeps. }
  pose proof (toggle_list_ids i (todos s) w) as T.
  destruct (map_now (update_one i u) (todos s) w).
  destruct (map_now (toggle_one i) (todos s) w). split; assumption.
Qed.

(** X1.  An update and a toggle keep the shape of the list: the ids are
    the same, in the same order, so no item is added, dropped or moved,
    and every item keeps its [createdAt]; a toggle keeps every title and
    description as well. *)
Theorem update_toggle_keep_shape
    (s : TodoState) (i : jsstring) (u : UpdateTodoInput) (w : W) :
  let su := fst (todoReducer s (UPDATE_TODO i u) w) in
  let st := fst (todoReducer s (TOGGLE_TODO i) w) in
  map id (todos su) = map id (todos s) /\
  map createdAt (todos su) = map createdAt (todos s) /\
  List.length (todos su) = List.length (todos s) /\
  map id (todos st) = map id (todos s) /\
  map createdAt (todos st) = map createdAt (todos s) /\
  map title (todos st) = map title (todos s) /\
  map description (todos st) = map description (todos s) /\
  List.length (todos st) = List.length (todos s).
Proof.
  simpl.
  assert (U1 : map id (fst (map_now (update_one i u) (todos s) w))
               = map id (todos s)).
  { apply Forall2_map_eq, map_now_pointwise. intros; apply update_one_keeps. }
  assert (U2 : map createdAt (fst (map_now (update_one i u) (todos s) w))
               = map createdAt (todos s)).
  { apply Forall2_map_eq, map_now_pointwise. intros; apply update_one_keeps. }
  assert (T1 : map id (fst (map_now (toggle_one i) (todos s) w))
               = map id (todos s)).
  { apply Forall2_map_eq, map_now_pointwise. intros; apply toggle_one_keeps. }
  assert (T2 : map createdAt (fst (map_now (toggle_one i) (todos s) w))
               = map createdAt (todos s)).
  { apply Forall2_map_eq, map_now_pointwise. intros; apply toggle_one_keeps. }
  assert (T3 : map title (fst (map_now (toggle_one i) (todos s) w))
               = map title (todos s)).
  { apply Forall2_map_eq, map_now_pointwise. intros; apply toggle_one_keeps. }
  assert (T4 : map description (fst (map_now (toggle_one i) (todos s) w))
               = map description (todos s)).
  { apply Forall2_map_eq, map_now_pointwise. intros; apply toggle_one_keeps. }
  destruct (map_now (update_one i u) (todos s) w) as [lu wu].
  destruct (map_now (toggle_one i) (todos s) w) as [lt wt]. simpl in *.
  repeat split; try assumption.
  - rewrite <- (length_map id lu), U1. apply length_map.
  - rewrite <- (length_map id lt), T1. apply length_map.
Qed.

(** X2.  An update rewrites the items of the given id and no other: an
    item of another id is the same afterwards; an item of the id takes
    each field that the update holds, keeps the fields it does not hold,
    keeps its id and [createdAt], and gets the next reading of the clock
    as [updatedAt], one reading per item. *)
Theorem update_merges_matching
    (s : TodoState) (i : jsstring) (u : UpdateTodoInput) (w : W) :
  let hit := fun t => strict_eq (id t) i in
  let s1 := fst (todoReducer s (UPDATE_TODO i u) w) in
  Forall2 (fun t t1 =>
             if hit t
             then id t1 = id t /\ createdAt t1 = createdAt t /\
                  title t1 = match u_title u with
                             | Some x => x | None => title t end /\
                  description t1 = match u_description u with
                                   | Some x => x | None => description t end /\
                  completed t1 = match u_completed u with
                                 | Some x => x | None => completed t end
             else t1 = t) (todos s) (todos s1) /\
  map updatedAt (filter hit (todos s1))
  = readings (List.length (filter hit (todos s))) w.
Proof.
  simpl. generalize (todos s) as l. intros l. revert w.
  induction l as [|t l IH]; intros w; simpl.
  - split; [constructor | reflexivity].
  - unfold update_one at 1 3. destruct (strict_eq (id t) i) eqn:E.
    + destruct (dateNow w) as [now w1] eqn:Enow.
      specialize (IH w1). destruct (map_now (update_one i u) l w1) as [l1 w2].
      simpl in *. rewrite E. simpl. rewrite Enow.
      destruct IH as [IH1 IH2]. split.
      * constructor; [rewrite E; repeat split | exact IH1].
      * f_equal. exact IH2.
    + specialize (IH w). destruct (map_now (update_one i u) l w) as [l1 w2].
      simpl in *. rewrite E. destruct IH as [IH1 IH2]. split.
      * constructor; [rewrite E; reflexivity | exact IH1].
      * exact IH2.
Qed.

(** X3.  A delete drops every item of the given id and nothing else: no
    item of that id is left, an item is in the list afterwards exactly
    when it was there with another id, the clock is not read, deleting
    the same id again changes nothing, and an update or a toggle of the
    deleted id then leaves the items as they are. *)
Theorem delete_drops_matching
    (s : TodoState) (i : jsstring) (u : UpdateTodoInput) (w : W) :
  let s1 := fst (todoReducer s (DELETE_TODO i) w) in
  snd (todoReducer s (DELETE_TODO i) w) = w /\
  ~ In i (map id (todos s1)) /\
  (forall t, In t (todos s1) <-> In t (todos s) /\ id t <> i) /\
  todoReducer s1 (DELETE_TODO i) w = (s1, w) /\
  todos (fst (todoReducer s1 (UPDATE_TODO i u) w)) = todos s1 /\
  todos (fst (todoReducer s1 (TOGGLE_TODO i) w)) = todos s1.
Proof.
  simpl.
  set (keep := fun todo : Todo => negb (strict_eq (id todo) i)).
  assert (A : ~ In i (map id (filter keep (todos s)))).
  { intros Hin. apply in_map_iff in Hin as (t & E & Ht).
    apply filter_In in Ht as [_ K]. unfold keep in K.
    rewrite <- E, strict_eq_refl in K. discriminate. }
  assert (K : forall t, In t (filter keep (todos s)) -> keep t = true).
  { intros t Ht. apply filter_In in Ht. tauto. }
  repeat split.
  - exact A.
  - apply filter_In in H0. tauto.
  - apply filter_In in H0 as [_ E]. unfold keep in E. intros <-.
    destruct (strict_eq (id t) (id t)) eqn:D; [discriminate|].
    apply strict_eq_false in D. congruence.
  - intros [Ht N]. apply filter_In. split; [exact Ht|].
    unfold keep. apply strict_eq_false in N. now rewrite N.
  - rewrite filter_keeps_all; [reflexivity | exact K].
  - rewrite map_now_fixes; [reflexivity|].
    intros t Ht w'. unfold update_one.
    now rewrite (@absent_id i _ _ A Ht).
  - rewrite map_now_fixes; [reflexivity|].
    intros t Ht w'. unfold toggle_one.
    now rewrite (@absent_id i _ _ A Ht).
Qed.

Lemma NoDup_filter_ids (p : Todo -> bool) (l : list Todo) :
  NoDup (map id l) -> NoDup (map id (filter p l)).
Proof.
  induction l as [|t l IH]; simpl; intros N; [constructor|].
  inversion N as [|x xs Hx Hxs]; subst.
  destruct (p t); simpl; [|now apply IH].
  constructor; [|now apply IH].
  intros Hin. apply Hx. apply in_map_iff in Hin as (t' & E & Ht').
  apply in_map_iff. exists t'. split; [exact E|].
  apply filter_In in Ht'. tauto.
Qed.

(** X4.  Unique ids stay unique: when no two items of the list share an
    id, none do after an update, a delete or a toggle, and none do after
    an add of an item whose id is not in the list. *)
Theorem unique_ids_kept
    (s : TodoState) (i : jsstring) (u : UpdateTodoInput) (t : Todo) (w : W) :
  NoDup (map id (todos s)) ->
  NoDup (map id (todos (fst (todoReducer s (UPDATE_TODO i u) w)))) /\
  NoDup (map id (todos (fst (todoReducer s (DELETE_TODO i) w)))) /\
  NoDup (map id (todos (fst (todoReducer s (TOGGLE_TODO i) w)))) /\
  (~ In (id t) (map id (todos s)) ->
   NoDup (map id (todos (fst (todoReducer s (ADD_TODO t) w))))).
Proof.
  intros N.
  destruct (update_toggle_keep_shape_ids s i u w) as [U T].
  repeat split.
  - rewrite U. exact N.
  - simpl. apply NoDup_filter_ids. exact N.
  - rewrite T. exact N.
  - intros F. simpl. constructor; assumption.
Qed.

End StoreFacts.

Section StoreInvariants.
Context {W : Type} `{Platform W}.

(** X5.  Adding an item whose id is new and then deleting that id gives
    back the items that were there. *)
Theorem add_then_delete (s : TodoState) (t : Todo) (w w' : W) :
  ~ In (id t) (map id (todos s)) ->
  todos (fst (todoReducer (fst (todoReducer s (ADD_TODO t) w))
                          (DELETE_TODO (id t)) w')) = todos s.
Proof.
  intros F. simpl. rewrite strict_eq_refl. simpl.
  apply filter_keeps_all. intros x Hx.
  now rewrite (@absent_id (id t) _ _ F Hx).
Qed.

(** A map that stamps the items it hits with the reading of the clock and
    keeps their [createdAt] keeps every item's [createdAt] at or below
    its [updatedAt], when no reading is below a [createdAt] of the list. *)
Lemma stamped_list (hit : Todo -> bool) (f : Todo -> W -> Todo * W)
    (l : list Todo) (w : W) :
  (forall t w', hit t = false -> f t w' = (t, w')) ->
  (forall t w', hit t = true ->
     snd (f t w') = snd (dateNow w') /\
     createdAt (fst (f t w')) = createdAt t /\
     updatedAt (fst (f t w')) = fst (dateNow w')) ->
  Forall (fun t => (createdAt t <= updatedAt t)%Z) l ->
  (forall t r, In t l -> In r (readings (List.length (filter hit l)) w) ->
     (createdAt t <= r)%Z) ->
  Forall (fun t => (createdAt t <= updatedAt t)%Z) (fst (map_now f l w)).
Proof.
  intros Hmiss Hhit. revert w.
  induction l as [|t l IH]; intros w Hinv Hclock; simpl; [constructor|].
  inversion Hinv as [|x xs Ht Hl]; subst.
  simpl in Hclock. destruct (hit t) eqn:E.
  - destruct (Hhit t w E) as (S1 & S2 & S3).
    destruct (f t w) as [t1 w1]. simpl in *. subst w1.
    destruct (dateNow w) as [now w1] eqn:Enow. simpl in *.
    specialize (IH w1 Hl).
    destruct (map_now f l w1) as [l1 w2]. simpl in *.
    constructor.
    + rewrite S2, S3. apply Hclock; left; reflexivity.
    + apply IH. intros x r Hx Hr. apply Hclock; right; assumption.
  - rewrite (Hmiss t w E). specialize (IH w Hl).
    destruct (map_now f l w) as [l1 w2]. simpl in *.
    constructor; [exact Ht|].
    apply IH. intros x r Hx Hr. apply Hclock; [right|]; assumption.
Qed.

(** X6.  The order of the two timestamps is an invariant of the store
    under a clock that does not read below a creation time: when every
    item has [createdAt <= updatedAt] and the readings an update or a
    toggle takes are not below any [createdAt] of the list, every item
    has [createdAt <= updatedAt] afterwards; a delete keeps the invariant
    as it is. *)
Theorem timestamps_stay_ordered
    (s : TodoState) (i : jsstring) (u : UpdateTodoInput) (w : W) :
  let hit := fun t => strict_eq (id t) i in
  let ordered := Forall (fun t => (createdAt t <= updatedAt t)%Z) in
  ordered (todos s) ->
  (forall t r, In t (todos s) ->
     In r (readings (List.length (filter hit (todos s))) w) ->
     (createdAt t <= r)%Z) ->
  ordered (todos (fst (todoReducer s (UPDATE_TODO i u) w))) /\
  ordered (todos (fst (todoReducer s (TOGGLE_TODO i) w))) /\
  ordered (todos (fst (todoReducer s (DELETE_TODO i) w))).
Proof.
  intros hit ordered Hinv Hclock. unfold ordered in *. simpl.
  assert (U := @stamped_list hit (update_one i u) (todos s) w).
  assert (T := @stamped_list hit (toggle_one i) (todos s) w).
  destruct (map_now (update_one i u) (todos s) w) as [lu wu].
  destruct (map_now (toggle_one i) (todos s) w) as [lt wt]. simpl in *.
  repeat split.
  - apply U; try assumption.
    + intros t w' E. unfold update_one. fold (hit t). now rewrite E.
    + intros t w' E. unfold update_one. fold (hit t). rewrite E.
      destruct (dateNow w'). repeat split.
  - apply T; try assumption.
    + intros t w' E. unfold toggle_one. fold (hit t). now rewrite E.
    + intros t w' E. unfold toggle_one. fold (hit t). rewrite E.
      destruct (dateNow w'). repeat split.
  - apply Forall_forall. intros t Ht. apply filter_In in Ht as [Ht _].
    rewrite Forall_forall in Hinv. now apply Hinv.
Qed.

(** X7.  Under a clock that does not go backwards between two readings
    in a row, an item made by [addTodo] has [createdAt <= updatedAt], so
    a list in which every item has the two in this order still has after
    a create. *)
Theorem created_item_ordered (input : CreateTodoInput) (c : Core W) :
  (forall w, (fst (dateNow w) <= fst (dateNow (snd (dateNow w))))%Z) ->
  let ordered := Forall (fun t => (createdAt t <= updatedAt t)%Z) in
  let made := fst (TodoContext.newTodo input (device c)) in
  (createdAt made <= updatedAt made)%Z /\
  (ordered (todos (store c)) ->
   ordered (todos (store (snd (TodoContext.addTodo input c))))).
Proof.
  intros Hmono ordered made.
  assert (A : (createdAt made <= updatedAt made)%Z).
  { unfold made, TodoContext.newTodo.
    destruct (dateNow (device c)) as [t0 w1].
    destruct (randomSuffix w1) as [sfx w2].
    specialize (Hmono w2).
    destruct (dateNow w2) as [t1 w3]. simpl in Hmono.
    destruct (dateNow w3) as [t2 w4]. simpl in *. exact Hmono. }
  split; [exact A|].
  intros Hinv. rewrite addTodo_run. simpl. constructor; assumption.
Qed.

End StoreInvariants.

(** X4, on the list of [milk] and a second item. *)
Lemma unique_ids_kept_witness :
  let t := {| id := js "2"; title := js "Tea"; description := None;
              completed := false; createdAt := 20; updatedAt := 20 |} in
  NoDup (map id (todos listed)) /\
  NoDup (map id (todos (fst (todoReducer listed (ADD_TODO t) phone)))).
Proof.
  intros t.
  assert (N : NoDup (map id (todos listed))).
  { simpl. constructor; [intros []|constructor]. }
  split; [exact N|].
  apply (@unique_ids_kept Device scripted listed (js "1")
           (mkUpdate None None None) t phone N).
  simpl. intros [E|[]]. discriminate E.
Defined.

(** X5, on [milk] added to the empty list. *)
Lemma add_then_delete_witness :
  ~ In (id milk) (map id (todos initialState)) /\
  todos (fst (todoReducer (fst (todoReducer initialState (ADD_TODO milk) phone))
                          (DELETE_TODO (id milk)) phone)) = [].
Proof.
  assert (F : ~ In (id milk) (map id (todos initialState))) by (intros []).
  split; [exact F|].
  exact (@add_then_delete Device scripted initialState milk phone phone F).
Defined.

(** X6, on the list of [milk], created at 10, and the phone's clock,
    which reads 1000. *)
Lemma timestamps_stay_ordered_witness :
  Forall (fun t => (createdAt t <= updatedAt t)%Z)
         (todos (fst (todoReducer listed (TOGGLE_TODO (js "1")) phone))).
Proof.
  apply (@timestamps_stay_ordered Device scripted listed (js "1")
           (mkUpdate None None None) phone).
  - repeat constructor. simpl. lia.
  - simpl. intros t r [<-|[]] [<-|[]]. simpl. lia.
Defined.

(** X7, on the scripted device, whose clock advances at every reading. *)
Lemma created_item_ordered_witness :
  let made := fst (TodoContext.newTodo (mkCreate (js " Tea ") None) phone) in
  (createdAt made <= updatedAt made)%Z.
Proof.
  apply (@created_item_ordered Device scripted (mkCreate (js " Tea ") None)
           (app listed phone)).
  intros w. simpl. lia.
Defined.

(* ================================================================== *)
(** * The storage service *)

Ltac run_storage :=
  unfold perform, console_log; run_prog.

Lemma lookup_removed (key : jsstring) (l : list (jsstring * jsstring)) :
  lookup key (filter (fun kv => negb (strict_eq (fst kv) key)) l) = None.
Proof.
  induction l as [|[k v] l IH]; simpl; [reflexivity|].
  destruct (strict_eq k key) eqn:E; simpl; [exact IH|].
  rewrite E. exact IH.
Qed.

Section StorageFacts.
Context {W : Type} `{Platform W} `{Storage W}.

(** X8.  A write of the storage service that fails throws an [Error] of
    the service with a fixed message, whatever the device threw, after a
    line on the console; a write that the device completes returns with
    nothing logged.  This holds for [saveTodos], [clearTodos], [clearAll],
    [setHasLaunched] and [setBiometricSetupComplete], each with its own
    message, and each leaves the device as its one call to it did. *)
Theorem writes_rethrow (todos : list Todo) (c : Core W) :
  let rethrown := fun (o : outcome unit) (said message : jsstring)
                      (run : outcome unit * Core W * list Event) =>
    fst (fst run) = match o with
                    | Ret _ => Ret tt
                    | Throw _ => Throw (JsError message)
                    | Pending => Pending
                    end /\
    snd run = match o with
              | Throw _ => [EvConsoleError said]
              | _ => []
              end in
  let wrote := fun key value => setItem key value (device c) in
  rethrown (fst (wrote storageService.TODOS (jsonStringify todos)))
    (js "Error saving todos:") (js "Failed to save todos to storage")
    (storageService.saveTodos todos c) /\
  device (snd (fst (storageService.saveTodos todos c)))
  = snd (wrote storageService.TODOS (jsonStringify todos)) /\
  rethrown (fst (removeItem storageService.TODOS (device c)))
    (js "Error clearing todos:") (js "Failed to clear todos from storage")
    (storageService.clearTodos c) /\
  device (snd (fst (storageService.clearTodos c)))
  = snd (removeItem storageService.TODOS (device c)) /\
  rethrown (fst (clear (device c)))
    (js "Error clearing storage:") (js "Failed to clear storage")
    (storageService.clearAll c) /\
  device (snd (fst (storageService.clearAll c))) = snd (clear (device c)) /\
  rethrown (fst (wrote storageService.HAS_LAUNCHED (js "true")))
    (js "Error setting has launched:") (js "Failed to save launch status")
    (storageService.setHasLaunched c) /\
  device (snd (fst (storageService.setHasLaunched c)))
  = snd (wrote storageService.HAS_LAUNCHED (js "true")) /\
  rethrown (fst (wrote storageService.BIOMETRIC_SETUP (js "true")))
    (js "Error setting biometric setup:")
    (js "Failed to save biometric setup status")
    (storageService.setBiometricSetupComplete c) /\
  device (snd (fst (storageService.setBiometricSetupComplete c)))
  = snd (wrote storageService.BIOMETRIC_SETUP (js "true")).
Proof.
  cbv zeta.
  unfold storageService.saveTodos, storageService.clearTodos,
    storageService.clearAll, storageService.setHasLaunched,
    storageService.setBiometricSetupComplete.
  run_storage.
  destruct (setItem storageService.TODOS (jsonStringify todos) (device c))
    as [[[]|e1|] w1];
  destruct (removeItem storageService.TODOS (device c)) as [[[]|e2|] w2];
  destruct (clear (device c)) as [[[]|e3|] w3];
  destruct (setItem storageService.HAS_LAUNCHED (js "true") (device c))
    as [[[]|e4|] w4];
  destruct (setItem storageService.BIOMETRIC_SETUP (js "true") (device c))
    as [[[]|e5|] w5];
  simpl; repeat split.
Qed.

(** X9.  The reads of the storage service never throw.  [isFirstLaunch]
    is true exactly when the read returns and nothing is stored under the
    launch key; [isBiometricSetupComplete] is true exactly when the read
    returns the text "true"; a read that throws makes both false, after a
    line on the console: the log of each is its one read, followed by
    its line on the console exactly when the read threw. *)
Theorem flag_reads (c : Core W) :
  let first := fst (fst (storageService.isFirstLaunch c)) in
  let complete := fst (fst (storageService.isBiometricSetupComplete c)) in
  let logged := fun key (read : outcome (option jsstring)) (said : jsstring) =>
    EvGetItem key read
    :: match read with Throw _ => [EvConsoleError said] | _ => [] end in
  first = match fst (getItem storageService.HAS_LAUNCHED (device c)) with
          | Ret None => Ret true
          | Ret (Some _) => Ret false
          | Throw _ => Ret false
          | Pending => Pending
          end /\
  complete = match fst (getItem storageService.BIOMETRIC_SETUP (device c)) with
             | Ret (Some value) => Ret (strict_eq value (js "true"))
             | Ret None => Ret false
             | Throw _ => Ret false
             | Pending => Pending
             end /\
  is_throw first = false /\ is_throw complete = false /\
  (complete = Ret true <->
   fst (getItem storageService.BIOMETRIC_SETUP (device c)) = Ret (Some (js "true"))) /\
  snd (storageService.isFirstLaunch c)
  = logged storageService.HAS_LAUNCHED
      (fst (getItem storageService.HAS_LAUNCHED (device c)))
      (js "Error checking first launch:") /\
  snd (storageService.isBiometricSetupComplete c)
  = logged storageService.BIOMETRIC_SETUP
      (fst (getItem storageService.BIOMETRIC_SETUP (device c)))
      (js "Error checking biometric setup:").
Proof.
  cbv zeta.
  unfold storageService.isFirstLaunch, storageService.isBiometricSetupComplete.
  run_storage.
  destruct (getItem storageService.HAS_LAUNCHED (device c)) as [[[v1|]|e1|] w1];
  destruct (getItem storageService.BIOMETRIC_SETUP (device c)) as [[[v2|]|e2|] w2];
  simpl; repeat (split; [reflexivity|]);
    (split; [|split; reflexivity]); split; intros E;
    try discriminate E;
    match goal with
    | |- Ret (Some _) = _ =>
        injection E as E; apply strict_eq_true in E; now subst
    | |- Ret (strict_eq _ _) = _ =>
        injection E as ->; now rewrite strict_eq_refl
    end.
Qed.

(** X10.  What a write stores is what the next read finds, on a storage
    that returns under a key the value last set under it: once
    [setHasLaunched] has returned, [isFirstLaunch] is false; once
    [setBiometricSetupComplete] has returned, [isBiometricSetupComplete]
    is true; and once [saveTodos] has returned, [loadTodos] returns the
    saved items, when the text of the items parses back to them. *)
Theorem write_then_read (todos : list Todo) (c : Core W) :
  (forall key value w w',
     setItem key value w = (Ret tt, w') ->
     fst (getItem key w') = Ret (Some value)) ->
  jsonParse (jsonStringify todos) = Ret todos ->
  (forall c1 t1, storageService.setHasLaunched c = (Ret tt, c1, t1) ->
     fst (fst (storageService.isFirstLaunch c1)) = Ret false) /\
  (forall c1 t1, storageService.setBiometricSetupComplete c = (Ret tt, c1, t1) ->
     fst (fst (storageService.isBiometricSetupComplete c1)) = Ret true) /\
  (forall c1 t1, storageService.saveTodos todos c = (Ret tt, c1, t1) ->
     fst (fst (storageService.loadTodos c1)) = Ret todos).
Proof.
  intros Law Codec.
  unfold storageService.setHasLaunched, storageService.isFirstLaunch,
    storageService.setBiometricSetupComplete,
    storageService.isBiometricSetupComplete,
    storageService.saveTodos, storageService.loadTodos.
  run_storage.
  repeat split; intros c1 t1.
  - destruct (setItem storageService.HAS_LAUNCHED (js "true") (device c))
      as [[[]|e|] w1] eqn:E; simpl; intros R; inversion R; subst; simpl.
    pose proof (Law _ _ _ _ E) as G.
    destruct (getItem storageService.HAS_LAUNCHED w1) as [r w2].
    simpl in G. subst r. reflexivity.
  - destruct (setItem storageService.BIOMETRIC_SETUP (js "true") (device c))
      as [[[]|e|] w1] eqn:E; simpl; intros R; inversion R; subst; simpl.
    pose proof (Law _ _ _ _ E) as G.
    destruct (getItem storageService.BIOMETRIC_SETUP w1) as [r w2].
    simpl in G. subst r. reflexivity.
  - destruct (setItem storageService.TODOS (jsonStringify todos) (device c))
      as [[[]|e|] w1] eqn:E; simpl; intros R; inversion R; subst; simpl.
    pose proof (Law _ _ _ _ E) as G.
    destruct (getItem storageService.TODOS w1) as [r w2].
    simpl in G. subst r. simpl. rewrite Codec. reflexivity.
Qed.

(** X11.  What is cleared is gone, on a storage that finds nothing under
    a removed key and nothing at all once cleared: after [clearTodos] has
    returned, [loadTodos] returns the empty list; after [clearAll] has
    returned, [loadTodos] returns the empty list, [isFirstLaunch] is true
    again and [isBiometricSetupComplete] is false. *)
Theorem clear_then_read (c : Core W) :
  (forall key w w',
     removeItem key w = (Ret tt, w') -> fst (getItem key w') = Ret None) ->
  (forall w w', clear w = (Ret tt, w') ->
     forall key, fst (getItem key w') = Ret None) ->
  (forall c1 t1, storageService.clearTodos c = (Ret tt, c1, t1) ->
     fst (fst (storageService.loadTodos c1)) = Ret []) /\
  (forall c1 t1, storageService.clearAll c = (Ret tt, c1, t1) ->
     fst (fst (storageService.loadTodos c1)) = Ret [] /\
     fst (fst (storageService.isFirstLaunch c1)) = Ret true /\
     fst (fst (storageService.isBiometricSetupComplete c1)) = Ret false).
Proof.
  intros LawR LawC.
  unfold storageService.clearTodos, storageService.clearAll,
    storageService.loadTodos, storageService.isFirstLaunch,
    storageService.isBiometricSetupComplete.
  run_storage.
  split; intros c1 t1.
  - destruct (removeItem storageService.TODOS (device c)) as [[[]|e|] w1] eqn:E;
      simpl; intros R; inversion R; subst; simpl.
    pose proof (LawR _ _ _ E) as G.
    destruct (getItem storageService.TODOS w1) as [r w2].
    simpl in G. subst r. reflexivity.
  - destruct (clear (device c)) as [[[]|e|] w1] eqn:E;
      simpl; intros R; inversion R; subst; simpl.
    pose proof (LawC _ _ E) as G.
    pose proof (G storageService.TODOS) as G1.
    pose proof (G storageService.HAS_LAUNCHED) as G2.
    pose proof (G storageService.BIOMETRIC_SETUP) as G3.
    destruct (getItem storageService.TODOS w1) as [r1 w2].
    destruct (getItem storageService.HAS_LAUNCHED w1) as [r2 w3].
    destruct (getItem storageService.BIOMETRIC_SETUP w1) as [r3 w4].
    simpl in *. subst. repeat split.
Qed.

End StorageFacts.

Section PersistFacts.
Context {W : Type} `{Platform W} `{Storage W}.

(** X12.  The persistence effect never throws and never changes the
    store.  While the state is loading it does nothing at all; otherwise
    it makes one write, of the text of the current items under the key of
    the todos, and when that write fails it logs the failure, with the
    line of the storage service and then its own, and returns all the
    same; a write that does not fail logs nothing. *)
Theorem persist_is_harmless (c : Core W) :
  let '(r, c', t) := TodoContext.persist c in
  let written := setItem storageService.TODOS
                         (jsonStringify (todos (store c))) (device c) in
  is_throw r = false /\ store c' = store c /\
  (loading (store c) = true -> r = Ret tt /\ c' = c /\ t = []) /\
  (loading (store c) = false ->
   device c' = snd written /\
   r = match fst written with Pending => Pending | _ => Ret tt end /\
   t = match fst written with
       | Throw _ => [EvConsoleError (js "Error saving todos:");
                     EvConsoleError (js "Failed to save todos:")]
       | _ => []
       end).
Proof.
  unfold TodoContext.persist, TodoContext.saveTodos, storageService.saveTodos.
  run_storage.
  destruct (loading (store c)); simpl.
  - repeat split; intros; discriminate.
  - destruct (setItem storageService.TODOS (jsonStringify (todos (store c)))
                      (device c)) as [[[]|e|] w1];
      simpl; repeat split; intros; discriminate.
Qed.

(** X13.  A stored list that cannot be read back is overwritten.  When
    the read of the todos throws, or the stored text does not parse, the
    load ends with the empty list and [loading = false], and the
    persistence effect that runs next writes the text of the empty list
    under the key of the todos. *)
Theorem unreadable_list_is_overwritten (c : Core W) :
  let '(_, c1, _) := TodoContext.loadTodos c in
  let '(_, c2, _) := TodoContext.persist c1 in
  let read := getItem storageService.TODOS (device c) in
  let lost := device c2
              = snd (setItem storageService.TODOS (jsonStringify []) (snd read))
              /\ todos (store c2) = [] /\ loading (store c2) = false in
  match fst read with
  | Throw _ => lost
  | Ret (Some text) =>
      match jsonParse text with
      | Throw _ => lost
      | _ => True
      end
  | _ => True
  end.
Proof.
  unfold TodoContext.loadTodos, TodoContext.persist, TodoContext.saveTodos,
    TodoContext.dispatch, storageService.loadTodos, storageService.saveTodos.
  run_storage.
  destruct (getItem storageService.TODOS (device c)) as [[[text|]|e|] w1];
    simpl; [destruct (jsonParse text) as [items|e|]; simpl| | |];
    split_run; repeat split.
Qed.

End PersistFacts.

(* ------------------------------------------------------------------ *)
(** ** Runs on the disk *)

Lemma disk_set_get (key value : jsstring) (w w' : Disk) :
  setItem key value w = (Ret tt, w') ->
  fst (getItem key w') = Ret (Some value).
Proof.
  destruct w as [f [|] t]; simpl; intros E; inversion E; subst; simpl.
  now rewrite strict_eq_refl.
Qed.

Lemma disk_remove_get (key : jsstring) (w w' : Disk) :
  removeItem key w = (Ret tt, w') -> fst (getItem key w') = Ret None.
Proof.
  destruct w as [f [|] t]; simpl; intros E; inversion E; subst; simpl.
  now rewrite lookup_removed.
Qed.

Lemma disk_clear_get (w w' : Disk) :
  clear w = (Ret tt, w') -> forall key, fst (getItem key w') = Ret None.
Proof.
  destruct w as [f [|] t]; simpl; intros E; inversion E; subst; reflexivity.
Qed.

(** X10, on the disk: the flags and the list of [milk] are read back. *)
Lemma write_then_read_witness :
  let c := on_disk listed fresh_disk in
  fst (fst (storageService.isFirstLaunch
              (snd (fst (storageService.setHasLaunched c))))) = Ret false /\
  fst (fst (storageService.isBiometricSetupComplete
              (snd (fst (storageService.setBiometricSetupComplete c)))))
  = Ret true /\
  fst (fst (storageService.loadTodos
              (snd (fst (storageService.saveTodos [milk] c))))) = Ret [milk].
Proof.
  intros c.
  destruct (@write_then_read Disk disk_platform disk_storage [milk] c
              disk_set_get eq_refl) as (A & B & C).
  split; [|split].
  - eapply A. reflexivity.
  - eapply B. reflexivity.
  - eapply C. reflexivity.
Defined.

(** X11, on a disk that holds the list of [milk] and both flags. *)
Lemma clear_then_read_witness :
  let d := {| files := [(storageService.TODOS, js "[milk]");
                        (storageService.HAS_LAUNCHED, js "true");
                        (storageService.BIOMETRIC_SETUP, js "true")];
              broken := false; ticks := 0 |} in
  let c := on_disk listed d in
  fst (fst (storageService.loadTodos c)) = Ret [milk] /\
  fst (fst (storageService.loadTodos
              (snd (fst (storageService.clearTodos c))))) = Ret [] /\
  fst (fst (storageService.isFirstLaunch
              (snd (fst (storageService.clearAll c))))) = Ret true.
Proof.
  intros d c.
  destruct (@clear_then_read Disk _ _ c disk_remove_get disk_clear_get)
    as (A & B).
  split; [reflexivity|]. split.
  - eapply A. reflexivity.
  - eapply B. reflexivity.
Defined.

(** X12, on a loading state, on a settled one, and on a disk that
    fails. *)
Lemma persist_is_harmless_witness :
  TodoContext.persist (on_disk initialState fresh_disk)
  = (Ret tt, on_disk initialState fresh_disk, []) /\
  lookup storageService.TODOS
    (files (device (snd (fst (TodoContext.persist (on_disk listed fresh_disk))))))
  = Some (js "[milk]") /\
  (let '(r, _, t) := TodoContext.persist (on_disk listed broken_disk) in
   r = Ret tt /\
   t = [EvConsoleError (js "Error saving todos:");
        EvConsoleError (js "Failed to save todos:")]).
Proof.
  pose proof (@persist_is_harmless Disk _ (on_disk initialState fresh_disk)) as G1.
  pose proof (@persist_is_harmless Disk _ (on_disk listed fresh_disk)) as G2.
  pose proof (@persist_is_harmless Disk _ (on_disk listed broken_disk)) as G3.
  destruct (TodoContext.persist (on_disk initialState fresh_disk))
    as [[r1 c1] t1].
  destruct (TodoContext.persist (on_disk listed fresh_disk)) as [[r2 c2] t2].
  destruct (TodoContext.persist (on_disk listed broken_disk)) as [[r3 c3] t3].
  destruct G1 as (_ & _ & G1 & _). destruct G2 as (_ & _ & _ & G2).
  destruct G3 as (_ & _ & _ & G3).
  destruct (G1 eq_refl) as (-> & -> & ->).
  destruct (G2 eq_refl) as (E & _).
  destruct (G3 eq_refl) as (_ & E3 & L3).
  split; [reflexivity|]. split; [simpl; rewrite E; reflexivity|].
  split; [exact E3 | exact L3].
Defined.


(* ================================================================== *)
(** * Further properties of the services and the gate *)

Lemma invocations_app (a b : list Event) :
  invocations (a ++ b) = (invocations a + invocations b)%nat.
Proof. unfold invocations. now rewrite filter_app, length_app. Qed.

Lemma offered_app (label : jsstring) (a b : list Event) :
  offered label (a ++ b) = offered label a || offered label b.
Proof. apply existsb_app. Qed.

Lemma pressed_button_app (i : nat) (a b : list Event) :
  pressed_button i (a ++ b) = pressed_button i a || pressed_button i b.
Proof. apply existsb_app. Qed.

Lemma challenge_resolved_app (ok : bool) (a b : list Event) :
  challenge_resolved ok (a ++ b)
  = challenge_resolved ok a || challenge_resolved ok b.
Proof. apply existsb_app. Qed.

Lemma sensorless_app (a b : list Event) :
  sensorless (a ++ b) = sensorless a || sensorless b.
Proof. apply existsb_app. Qed.

(** What a log of queries does not show: a dialog or a press. *)
Lemma queries_no_dialog (t : list Event) :
  forallb is_query t = true -> existsb is_dialog t = false.
Proof.
  induction t as [|e t IH]; simpl; intros Q; [reflexivity|].
  apply andb_true_iff in Q as [Qe Qt]. rewrite (IH Qt).
  destruct e; try discriminate Qe; reflexivity.
Qed.

Lemma no_dialog (t : list Event) :
  existsb is_dialog t = false ->
  (forall i, pressed_button i t = false) /\
  (forall label, offered label t = false).
Proof.
  unfold pressed_button, offered.
  induction t as [|e t IH]; simpl; intros Q; [repeat split|].
  apply orb_false_iff in Q as [Qe Qt]. destruct (IH Qt) as (I1 & I2).
  destruct e; try discriminate Qe; simpl; repeat split; auto.
Qed.

Ltac facts :=
  repeat match goal with
         | H : _ /\ _ |- _ => destruct H
         | H : @eq bool _ _ |- _ => discriminate H
         | H : ?a = ?a -> _ |- _ => specialize (H eq_refl)
         end.

(** The four readings of a log that the gate's effects are stated with,
    on a log in pieces: pieces with known readings are rewritten, pieces
    that are spelled out are computed. *)
Ltac read_log :=
  rewrite ?app_nil_r;
  rewrite ?invocations_app, ?offered_app, ?pressed_button_app,
    ?challenge_resolved_app, ?sensorless_app;
  repeat match goal with
         | H : forall _, offered _ ?t = _ |- context [offered _ ?t] => rewrite H
         | H : forall _, pressed_button _ ?t = _
           |- context [pressed_button _ ?t] => rewrite H
         | H : forall _, challenge_resolved _ ?t = _
           |- context [challenge_resolved _ ?t] => rewrite H
         | H : invocations ?t = _ |- context [invocations ?t] => rewrite H
         | H : sensorless ?t = _ |- context [sensorless ?t] => rewrite H
         | H : challenge_resolved ?b ?t = _
           |- context [challenge_resolved ?b ?t] => rewrite H
         end;
  repeat match goal with
         | |- context [offered ?a (?e :: ?l)] =>
             let v := eval vm_compute in (offered a (e :: l)) in
             change (offered a (e :: l)) with v
         | |- context [pressed_button ?a (?e :: ?l)] =>
             let v := eval vm_compute in (pressed_button a (e :: l)) in
             change (pressed_button a (e :: l)) with v
         | |- context [challenge_resolved ?a (?e :: ?l)] =>
             let v := eval vm_compute in (challenge_resolved a (e :: l)) in
             change (challenge_resolved a (e :: l)) with v
         | |- context [invocations (?e :: ?l)] =>
             let v := eval vm_compute in (invocations (e :: l)) in
             change (invocations (e :: l)) with v
         | |- context [sensorless (?e :: ?l)] =>
             let v := eval vm_compute in (sensorless (e :: l)) in
             change (sensorless (e :: l)) with v
         | |- context [sensorless []] => change (sensorless []) with false
         | |- context [offered ?a []] => change (offered a []) with false
         | |- context [pressed_button ?a []] =>
             change (pressed_button a []) with false
         | |- context [challenge_resolved ?a []] =>
             change (challenge_resolved a []) with false
         | |- context [invocations []] => change (invocations []) with 0%nat
         end;
  cbn [orb Nat.add];
  rewrite ?orb_true_r, ?orb_false_r, ?Nat.add_0_r.

Ltac chain :=
  repeat match goal with
         | Himp : ?P -> _, H : ?P |- _ => specialize (Himp H)
         end;
  facts;
  repeat match goal with
         | H : exists _, _ |- _ => destruct H
         | H : _ \/ _ |- _ => destruct H
         end;
  facts.

Ltac quiet_facts :=
  facts;
  repeat match goal with
         | H : forallb is_query _ = true |- _ =>
             pose proof (no_dialog _ (queries_no_dialog _ H));
             apply queries_only in H; facts
         | H : existsb is_dialog _ = false |- _ =>
             apply no_dialog in H; facts
         | H : challenged _ = false |- _ =>
             pose proof (not_challenged _ H); unfold challenged in H
         end;
  facts.

Ltac invoke_cases op :=
  match goal with
  | |- context [op ?c0] => destruct (op c0) as [[?|?|] ?] eqn:?; simpl
  end.

Section MoreGateFacts.
Context {W : Type} `{Platform W}.

Lemma getBiometricStatus_sensors (c : Core W) :
  let '(r, _, t) := useAuth.getBiometricStatus c in
  forall status, r = Ret status -> useAuth.hasHardware status = false ->
  sensorless t = true.
Proof.
  unfold useAuth.getBiometricStatus, useAuth.promiseAll,
    biometricService.getSupportedAuthenticationTypes.
  run_prog.
  destruct (supportedAuthenticationTypesAsync (device c)) as [[[|ty types]|e|] w1];
    simpl;
    match goal with
    | |- context [biometricService.hasBiometricHardwareButNotEnrolled ?c1] =>
        pose proof (hasBiometricHardwareButNotEnrolled_run c1) as F;
        destruct (biometricService.hasBiometricHardwareButNotEnrolled c1)
          as [[[b|e'|] c2] t2]
    end;
    simpl in *; facts; intros status E S; inversion E; subst; simpl in *;
    try discriminate; reflexivity.
Qed.

Lemma handleBiometricNotAvailable_effects {T} (operation : P W T)
    (name : jsstring) (c : Core W) :
  let '(r, c', t) := useAuth.handleBiometricNotAvailable operation name c in
  (invocations t = 0 \/ invocations t = 1)%nat /\
  (invocations t = 0%nat -> store c' = store c /\ (r = Ret None \/ r = Pending)) /\
  (invocations t = 1%nat ->
   offered (js "Continue") t = true /\ pressed_button 1 t = true /\
   exists c0, store c0 = store c /\ store c' = store (snd (operation c0)) /\
     match fst (operation c0) with
     | Ret v => r = Ret (Some v)
     | Throw _ => r = Ret None
     | Pending => r = Pending
     end) /\
  (pressed_button 0 t = true -> r = Ret None /\ invocations t = 0%nat) /\
  (offered (js "Open Settings") t = true -> invocations t = 0%nat) /\
  (offered (js "Continue") t = true -> pressed_button 1 t = true ->
   invocations t = 1%nat) /\
  (offered (js "Continue") t = true -> sensorless t = true).
Proof.
  unfold useAuth.handleBiometricNotAvailable, useAuth.promiseOfAlert,
    useAuth.generateAlertConfig, useAuth.openAppSettings,
    useAuth.executeOperationWithoutAuth.
  run_prog.
  pose proof (getBiometricStatus_run c) as F.
  pose proof (getBiometricStatus_sensors c) as S.
  destruct (useAuth.getBiometricStatus c) as [[[[hw en]|e|] c1] t1];
    simpl in *; try specialize (S _ eq_refl); simpl in S; quiet_facts.
  2:{ read_log. repeat split; intros; facts; try discriminate; auto. }
  destruct hw, en; simpl; split_run; read_log;
    repeat split; intros; facts; try discriminate; auto;
    try (match goal with
         | E : operation ?c0 = _ |- _ => exists c0; rewrite E; simpl
         end; repeat split; congruence).
Qed.

Lemma authenticate_no_dialog (prompt : option jsstring) (c : Core W) :
  existsb is_dialog (snd (biometricService.authenticate prompt c)) = false.
Proof.
  unfold biometricService.authenticate, biometricService.isBiometricAvailable.
  run_prog. split_run; reflexivity.
Qed.

Lemma authenticate_passed (prompt : option jsstring) (c : Core W) :
  let '(r, _, t) := biometricService.authenticate prompt c in
  forall a, r = Ret a -> Auth.success a = true ->
  challenge_resolved true t = true.
Proof.
  unfold biometricService.authenticate, biometricService.isBiometricAvailable.
  run_prog.
  split_run; intros x E S; inversion E; subst; simpl in *;
    try discriminate; close_run.
Qed.

Ltac gate_step :=
  match goal with
  | |- context [biometricService.isBiometricAvailable ?c] =>
      let F := fresh "F" in
      pose proof (isBiometricAvailable_run c) as F;
      destruct (biometricService.isBiometricAvailable c) as [[[[|]|?|] ?] ?];
      simpl in F |- *
  | |- context [biometricService.getBiometricTypeName ?c] =>
      let F := fresh "F" in
      pose proof (getBiometricTypeName_run c) as F;
      destruct (biometricService.getBiometricTypeName c) as [[[?|?|] ?] ?];
      simpl in F |- *
  | |- context [biometricService.authenticate ?p ?c] =>
      let F := fresh "F" in
      let G := fresh "G" in
      let K := fresh "K" in
      pose proof (authenticate_run p c) as F;
      pose proof (authenticate_no_dialog p c) as G;
      pose proof (authenticate_passed p c) as K;
      destruct (biometricService.authenticate p c) as [[[[[|] ?]|?|] ?] ?];
      simpl in F, G, K |- *;
      try specialize (K _ eq_refl eq_refl)
  | |- context [useAuth.handleBiometricNotAvailable ?o ?n ?c] =>
      let F := fresh "F" in
      let G := fresh "G" in
      pose proof (handleBiometricNotAvailable_run o n c) as F;
      pose proof (handleBiometricNotAvailable_effects o n c) as G;
      destruct (useAuth.handleBiometricNotAvailable o n c) as [[[?|?|] ?] ?];
      simpl in F, G |- *
  | |- context [if isAvailable ?c then _ else _] =>
      destruct (isAvailable c); simpl
  end.

Lemma authenticateAndExecute_effects {T} (operation : P W T)
    (prompt : option jsstring) (c : Core W) :
  let '(r, c', t) := useAuth.authenticateAndExecute operation prompt c in
  (invocations t = 0 \/ invocations t = 1)%nat /\
  (invocations t = 0%nat -> store c' = store c /\ (r = Ret None \/ r = Pending)) /\
  (invocations t = 1%nat ->
   (challenge_resolved true t = true \/
    (offered (js "Continue") t = true /\ pressed_button 1 t = true)) /\
   exists c0, store c0 = store c /\ store c' = store (snd (operation c0)) /\
     match fst (operation c0) with
     | Ret v => r = Ret (Some v)
     | Throw _ => r = Ret None
     | Pending => r = Pending
     end) /\
  (r <> Pending -> isAuthenticating c' = false) /\
  (pressed_button 0 t = true -> r = Ret None /\ invocations t = 0%nat) /\
  (offered (js "Open Settings") t = true -> invocations t = 0%nat) /\
  (offered (js "Continue") t = true -> pressed_button 1 t = true ->
   invocations t = 1%nat) /\
  (offered (js "Continue") t = true -> sensorless t = true).
Proof.
  unfold useAuth.authenticateAndExecute. run_prog.
  repeat gate_step; try invoke_cases operation; quiet_facts; read_log;
    repeat split; intros; simpl in *; chain;
    try discriminate; try congruence; auto;
    try (match goal with
         | E : operation ?c0 = _ |- _ => exists c0; rewrite E; simpl
         end; repeat split; congruence);
    try (match goal with
         | Hs : store _ = store (snd (operation ?x)) |- exists _, _ =>
             exists x; repeat split; try assumption; congruence
         end);
    try (match goal with
         | Hs : sensorless ?l = true |- _ =>
             rewrite Hs, ?orb_true_r; reflexivity
         end).
Qed.
Lemma authenticateAndExecute_safe {T} (operation : P W T)
    (prompt : option jsstring) (c : Core W) :
  is_throw (fst (fst (useAuth.authenticateAndExecute operation prompt c)))
  = false.
Proof.
  pose proof (authenticateAndExecute_effects operation prompt c) as E.
  destruct (useAuth.authenticateAndExecute operation prompt c) as [[r c'] t].
  destruct E as (E1 & E2 & E3 & _). simpl. destruct E1 as [I|I].
  - destruct (E2 I) as (_ & [-> | ->]); reflexivity.
  - destruct (E3 I) as (_ & c0 & _ & _ & M).
    destruct (fst (operation c0)); subst; reflexivity.
Qed.

End MoreGateFacts.

(* ------------------------------------------------------------------ *)
(** ** Failures of the availability queries *)



Section RecheckFacts.
Context {W : Type} `{Platform W}.





End RecheckFacts.

Section CaughtFacts.
Context {W : Type} `{Platform W}.


End CaughtFacts.
(* ------------------------------------------------------------------ *)
(** ** The gate on a ready device *)

Section ReadyDevice.
Context {W : Type} `{Platform W}.
Variable S : W -> Prop.
Hypothesis Hready : ready_device S.

Ltac ready_step :=
  match goal with
  | HS : S ?w |- context [hasHardwareAsync ?w] =>
      let Q := fresh "Q" in
      let F := fresh "F" in
      pose proof (proj1 Hready w HS) as F;
      destruct (hasHardwareAsync w) as [? ?] eqn:Q;
      simpl in F; destruct F as [-> ?]; simpl
  | HS : S ?w |- context [isEnrolledAsync ?w] =>
      let Q := fresh "Q" in
      let F := fresh "F" in
      pose proof (proj1 (proj2 Hready) w HS) as F;
      destruct (isEnrolledAsync w) as [? ?] eqn:Q;
      simpl in F; destruct F as [-> ?]; simpl
  | HS : S ?w |- context [supportedAuthenticationTypesAsync ?w] =>
      let Q := fresh "Q" in
      let F := fresh "F" in
      pose proof (proj1 (proj2 (proj2 Hready)) w HS) as F;
      destruct (supportedAuthenticationTypesAsync w) as [[?|?|] ?] eqn:Q;
      simpl in F; destruct F as [F ?]; [| |now elim F]; clear F; simpl
  | HS : S ?w |- context [authenticateAsync ?o ?w] =>
      let Q := fresh "Q" in
      let F := fresh "F" in
      destruct (proj2 (proj2 (proj2 Hready)) o w HS) as ([? ?] & F & ?);
      destruct (authenticateAsync o w) as [? ?] eqn:Q;
      simpl in *; subst; simpl
  | |- context [if isAvailable ?c then _ else _] =>
      destruct (isAvailable c); simpl
  | |- context [if biometricService.includes ?l ?x then _ else _] =>
      destruct (biometricService.includes l x); simpl
  end.

(** C4.  On a device that reports hardware and an enrolled credential and
    resolves the challenge with [success = true], the gate makes the
    challenge, invokes the operation exactly once, on the store as it was
    at the call, and returns what the operation returned (undefined when
    it threw); the store afterwards is the one the operation left. *)
Theorem gate_success_path {T} (operation : P W T) (prompt : option jsstring)
    (c : Core W) :
  S (device c) ->
  let '(r, c', t) := useAuth.authenticateAndExecute operation prompt c in
  invocations t = 1%nat /\
  challenge_resolved true t = true /\
  exists c0,
    store c0 = store c /\
    store c' = store (snd (operation c0)) /\
    match fst (operation c0) with
    | Ret v => r = Ret (Some v)
    | Throw _ => r = Ret None
    | Pending => r = Pending
    end.
Proof.
  intros HS.
  unfold useAuth.authenticateAndExecute, biometricService.authenticate,
    biometricService.isBiometricAvailable,
    biometricService.getBiometricTypeName,
    biometricService.getSupportedAuthenticationTypes.
  run_prog.
  repeat ready_step; invoke_cases operation;
    (split; [reflexivity|]); (split; [reflexivity|]);
    match goal with
    | E : operation ?c0 = _ |- _ => exists c0; rewrite E; simpl
    end;
    repeat split.
Qed.

End ReadyDevice.

Section GateProperties.
Context {W : Type} `{Platform W}.

(** X14.  The gate invokes the wrapped operation at most once, and only
    with leave: in a run that invokes it, either a challenge resolved with
    [success = true], or a dialog offered "Continue" and the user pressed
    it; and "Continue" is offered only in a run in which a query of the
    sensor types found none or threw. *)
Theorem gate_invokes_with_leave {T} (operation : P W T)
    (prompt : option jsstring) (c : Core W) :
  let '(_, _, t) := useAuth.authenticateAndExecute operation prompt c in
  (invocations t <= 1)%nat /\
  (invocations t = 1%nat ->
   challenge_resolved true t = true \/
   (offered (js "Continue") t = true /\ pressed_button 1 t = true)) /\
  (offered (js "Continue") t = true -> sensorless t = true).
Proof.
  pose proof (authenticateAndExecute_effects operation prompt c) as E.
  destruct (useAuth.authenticateAndExecute operation prompt c) as [[r c'] t].
  destruct E as (E1 & _ & E3 & _ & _ & _ & _ & E8).
  repeat split.
  - destruct E1 as [-> | ->]; lia.
  - intros I. apply (E3 I).
  - exact E8.
Qed.

(** X15.  The gate changes the store through the operation or not at
    all.  In a run that does not invoke the operation the store is the one
    before and the call returns undefined, or is never settled; in a run
    that invokes it, the operation ran on the store as it was at the call,
    the store afterwards is the one the operation left, and the call
    returns what the operation returned, undefined when it threw. *)
Theorem gate_is_atomic {T} (operation : P W T)
    (prompt : option jsstring) (c : Core W) :
  let '(r, c', t) := useAuth.authenticateAndExecute operation prompt c in
  (invocations t = 0%nat ->
   store c' = store c /\ (r = Ret None \/ r = Pending)) /\
  (invocations t = 1%nat ->
   exists c0, store c0 = store c /\ store c' = store (snd (operation c0)) /\
     match fst (operation c0) with
     | Ret v => r = Ret (Some v)
     | Throw _ => r = Ret None
     | Pending => r = Pending
     end).
Proof.
  pose proof (authenticateAndExecute_effects operation prompt c) as E.
  destruct (useAuth.authenticateAndExecute operation prompt c) as [[r c'] t].
  destruct E as (_ & E2 & E3 & _).
  split; [exact E2|]. intros I. apply (E3 I).
Qed.

(** X16.  A call of the gate that settles leaves [isAuthenticating]
    false, whatever it was before and however the call went. *)
Theorem gate_lowers_flag {T} (operation : P W T)
    (prompt : option jsstring) (c : Core W) :
  let '(r, c', _) := useAuth.authenticateAndExecute operation prompt c in
  r <> Pending -> isAuthenticating c' = false.
Proof.
  pose proof (authenticateAndExecute_effects operation prompt c) as E.
  destruct (useAuth.authenticateAndExecute operation prompt c) as [[r c'] t].
  destruct E as (_ & _ & _ & E4 & _). exact E4.
Qed.

(** X17.  The choices of the dialog shown when biometrics are not
    available.  "Cancel", the first button, makes the call return
    undefined without the operation being invoked.  In a run that offers
    "Open Settings" the operation is never invoked.  In a run that offers
    "Continue" and in which the second button is pressed, the operation
    is invoked exactly once. *)
Theorem unavailable_choices {T} (operation : P W T)
    (prompt : option jsstring) (c : Core W) :
  let '(r, _, t) := useAuth.authenticateAndExecute operation prompt c in
  (pressed_button 0 t = true -> r = Ret None /\ invocations t = 0%nat) /\
  (offered (js "Open Settings") t = true -> invocations t = 0%nat) /\
  (offered (js "Continue") t = true -> pressed_button 1 t = true ->
   invocations t = 1%nat).
Proof.
  pose proof (authenticateAndExecute_effects operation prompt c) as E.
  destruct (useAuth.authenticateAndExecute operation prompt c) as [[r c'] t].
  destruct E as (_ & _ & _ & _ & E5 & E6 & E7 & _).
  repeat split; try assumption; now apply E5.
Qed.

Lemma isBiometricAvailable_core (c : Core W) :
  let c' := snd (fst (biometricService.isBiometricAvailable c)) in
  c' = set_device c (device c').
Proof.
  unfold biometricService.isBiometricAvailable. run_prog.
  split_run; reflexivity.
Qed.

Lemma getBiometricTypeName_core (c : Core W) :
  let c' := snd (fst (biometricService.getBiometricTypeName c)) in
  c' = set_device c (device c').
Proof.
  unfold biometricService.getBiometricTypeName,
    biometricService.getSupportedAuthenticationTypes.
  run_prog. split_run; reflexivity.
Qed.

Ltac quiet_log :=
  repeat match goal with
         | Q : forallb is_query ?t = true |- _ =>
             pose proof (queries_no_dialog _ Q);
             apply queries_only in Q; facts
         end;
  unfold challenged in *;
  rewrite ?app_nil_r, ?existsb_app;
  repeat match goal with
         | Hc : existsb _ ?t = false |- context [existsb _ ?t] => rewrite Hc
         end.

(** X18.  The check on mount never throws, shows no dialog, makes no
    challenge and leaves the store alone.  When the availability query
    returns, [isAvailable] is what it returned; the label of the biometric
    type is replaced only when it returned [true]. *)
Theorem checkAvailability_sets_flag (dev : bool) (c : Core W) :
  let '(r, c', t) := useAuth.checkAvailability dev c in
  is_throw r = false /\ store c' = store c /\
  existsb is_dialog t = false /\ challenged t = false /\
  match fst (fst (biometricService.isBiometricAvailable c)) with
  | Ret b => isAvailable c' = b /\
             (b = false -> biometricType c' = biometricType c)
  | _ => isAvailable c' = isAvailable c /\ biometricType c' = biometricType c
  end.
Proof.
  unfold useAuth.checkAvailability. run_storage.
  pose proof (isBiometricAvailable_run c) as F.
  pose proof (isBiometricAvailable_core c) as Fc.
  destruct (biometricService.isBiometricAvailable c) as [[[[|]|e|] c1] t1];
    simpl in *; facts;
    assert (Fa : isAvailable c1 = isAvailable c
                 /\ biometricType c1 = biometricType c)
      by (rewrite Fc; split; reflexivity);
    destruct Fa; destruct dev; simpl.
  1, 2: match goal with
    | |- context [biometricService.getBiometricTypeName ?c2] =>
        pose proof (getBiometricTypeName_run c2) as G;
        pose proof (getBiometricTypeName_core c2) as Gc;
        destruct (biometricService.getBiometricTypeName c2)
          as [[[name|e|] c3] t3]
    end; simpl in *; facts;
    assert (Ga : isAvailable c3 = true) by (rewrite Gc; reflexivity);
    quiet_log; repeat split; intros; try discriminate; congruence.
  all: quiet_log; repeat split; intros; try discriminate; congruence.
Qed.

End GateProperties.

(* ------------------------------------------------------------------ *)
(** ** The biometric service, continued *)

Section BiometricFacts.
Context {W : Type} `{Platform W}.

Lemma includes_In (types : list AuthenticationType) (t : AuthenticationType) :
  biometricService.includes types t = true <-> In t types.
Proof.
  unfold biometricService.includes. rewrite existsb_exists. split.
  - intros (x & Hx & E). destruct t, x; try discriminate E; exact Hx.
  - intros Ht. exists t. split; [exact Ht | destruct t; reflexivity].
Qed.

(** X19.  The name of the biometric type never throws and is one of four
    labels, by priority: "Face ID" when facial recognition is among the
    types the device reports, else "Touch ID" when fingerprint is, else
    "Iris" when iris is, else "Biometric"; a query of the types that
    throws gives "Biometric". *)
Theorem type_name_by_priority (c : Core W) :
  let r := fst (fst (biometricService.getBiometricTypeName c)) in
  is_throw r = false /\
  match fst (supportedAuthenticationTypesAsync (device c)) with
  | Ret types =>
      exists name, r = Ret name /\
        (In FACIAL_RECOGNITION types -> name = js "Face ID") /\
        (~ In FACIAL_RECOGNITION types -> In FINGERPRINT types ->
         name = js "Touch ID") /\
        (~ In FACIAL_RECOGNITION types -> ~ In FINGERPRINT types ->
         In IRIS types -> name = js "Iris") /\
        (types = [] -> name = js "Biometric")
  | Throw _ => r = Ret (js "Biometric")
  | Pending => r = Pending
  end.
Proof.
  unfold biometricService.getBiometricTypeName,
    biometricService.getSupportedAuthenticationTypes.
  run_prog.
  destruct (supportedAuthenticationTypesAsync (device c)) as [[types|e|] w1];
    simpl; [|split; reflexivity|split; reflexivity].
  destruct (biometricService.includes types FACIAL_RECOGNITION) eqn:F;
    [|destruct (biometricService.includes types FINGERPRINT) eqn:G;
      [|destruct (biometricService.includes types IRIS) eqn:I]];
    simpl; (split; [reflexivity|]); eexists; (split; [reflexivity|]);
    repeat split; intros;
    try (exfalso;
         match goal with
         | Hn : ~ In ?x types, Hy : biometricService.includes types ?x = true
           |- _ => apply Hn, includes_In, Hy
         end);
    repeat match goal with
           | Hin : In _ types |- _ => apply includes_In in Hin
           end;
    subst; try discriminate; try congruence; reflexivity.
Qed.

(** X20.  On one state of the device, "available" and "hardware but not
    enrolled" are never both true, neither throws, and both are false
    when the hardware query answers false or throws; when the hardware
    query answers true and the enrollment query answers, exactly one of
    the two is true. *)
Theorem available_or_not_enrolled (c : Core W) :
  let a := fst (fst (biometricService.isBiometricAvailable c)) in
  let n := fst (fst (biometricService.hasBiometricHardwareButNotEnrolled c)) in
  is_throw a = false /\ is_throw n = false /\
  ~ (a = Ret true /\ n = Ret true) /\
  match fst (hasHardwareAsync (device c)) with
  | Ret true =>
      match fst (isEnrolledAsync (snd (hasHardwareAsync (device c)))) with
      | Ret enrolled => a = Ret enrolled /\ n = Ret (negb enrolled)
      | Throw _ => a = Ret false /\ n = Ret false
      | Pending => a = Pending /\ n = Pending
      end
  | Ret false => a = Ret false /\ n = Ret false
  | Throw _ => a = Ret false /\ n = Ret false
  | Pending => a = Pending /\ n = Pending
  end.
Proof.
  unfold biometricService.isBiometricAvailable,
    biometricService.hasBiometricHardwareButNotEnrolled.
  run_prog.
  destruct (hasHardwareAsync (device c)) as [[[|]|e|] w1]; simpl;
    [destruct (isEnrolledAsync w1) as [[[|]|e|] w2]; simpl| | |];
    repeat split; try reflexivity; intros [A B]; discriminate.
Qed.

End BiometricFacts.

(* ------------------------------------------------------------------ *)
(** ** The facade, continued *)

Section FacadeProperties.
Context {W : Type} `{Platform W}.

Lemma dispatch_run (action : TodoAction) (c : Core W) :
  fst (TodoContext.dispatch action c) = Ret tt /\
  store (snd (TodoContext.dispatch action c))
  = fst (todoReducer (store c) action (device c)).
Proof.
  unfold TodoContext.dispatch.
  destruct (todoReducer (store c) action (device c)). split; reflexivity.
Qed.

(** X21.  A gated intent changes the store by its transition or not at
    all.  For a create with a title that is not blank, and for an update,
    the store after the handler is the store before when the operation
    was not invoked; when it was, the store is the one the reducer gives
    from the store before: the list with one new item in front, which
    carries the trimmed title and is not completed, or the list updated
    for the id.  Neither handler throws. *)
Theorem gated_intents_are_atomic
    (input : CreateTodoInput) (i : jsstring) (u : UpdateTodoInput) (c : Core W) :
  truthy (trim (c_title input)) = true ->
  (let '(r, c', t) := useTodos.handleAddTodo input c in
   is_throw r = false /\
   (invocations t = 0%nat -> store c' = store c) /\
   (invocations t = 1%nat ->
    exists item, todos (store c') = item :: todos (store c) /\
      title item = trim (c_title input) /\ completed item = false /\
      loading (store c') = loading (store c))) /\
  (let '(r, c', t) := useTodos.handleUpdateTodo i u c in
   is_throw r = false /\
   (invocations t = 0%nat -> store c' = store c) /\
   (invocations t = 1%nat ->
    exists w, store c' = fst (todoReducer (store c) (UPDATE_TODO i u) w))).
Proof.
  intros V. unfold useTodos.handleAddTodo, useTodos.handleUpdateTodo.
  rewrite V. run_prog. split.
  - pose proof (authenticateAndExecute_effects (TodoContext.addTodo input)
                  (Some (js "Authenticate to add a new todo")) c) as E.
    pose proof (authenticateAndExecute_safe (TodoContext.addTodo input)
                  (Some (js "Authenticate to add a new todo")) c) as N.
    destruct (useAuth.authenticateAndExecute _ _ c) as [[[v|e|] c'] t];
      simpl in *; try discriminate N; rewrite ?app_nil_r;
      destruct E as (_ & E2 & E3 & _);
      (split; [reflexivity|]); (split; [intros I; now apply E2|]);
      intros I; destruct (E3 I) as (_ & c0 & S0 & S1 & _);
      rewrite addTodo_run in S1; simpl in S1;
      exists (fst (TodoContext.newTodo input (device c0)));
      rewrite S1; simpl; rewrite S0;
      destruct (newTodo_fields input (device c0)) as (T1 & _ & T3);
      repeat split; assumption.
  - pose proof (authenticateAndExecute_effects (TodoContext.updateTodo i u)
                  (Some (js "Authenticate to update this todo")) c) as E.
    pose proof (authenticateAndExecute_safe (TodoContext.updateTodo i u)
                  (Some (js "Authenticate to update this todo")) c) as N.
    destruct (useAuth.authenticateAndExecute _ _ c) as [[[v|e|] c'] t];
      simpl in *; try discriminate N; rewrite ?app_nil_r;
      destruct E as (_ & E2 & E3 & _);
      (split; [reflexivity|]); (split; [intros I; now apply E2|]);
      intros I; destruct (E3 I) as (_ & c0 & S0 & S1 & _);
      exists (device c0); rewrite S1;
      unfold TodoContext.updateTodo;
      rewrite (proj2 (dispatch_run _ c0)), S0; reflexivity.
Qed.

(** X22.  A delete is made only after the confirmation.  The handler
    returns at once and never throws.  When the user does not press
    "Delete", the second button, nothing follows the dialog: the store is
    the one before and the biometric collaborator is not called.  In any
    run, the store is the one before when the operation was not invoked,
    and the list without the items of the id when it was. *)
Theorem delete_needs_confirmation (i : jsstring) (c : Core W) :
  let '(r, c', t) := useTodos.handleDeleteTodo i c in
  r = Ret tt /\
  (fst (pressButton (device c)) <> Some 1%nat ->
   store c' = store c /\ filter is_biometric t = [] /\
   invocations t = 0%nat) /\
  (invocations t = 0%nat -> store c' = store c) /\
  (invocations t = 1%nat ->
   fst (pressButton (device c)) = Some 1%nat /\
   todos (store c')
   = filter (fun todo => negb (strict_eq (id todo) i)) (todos (store c))).
Proof.
  unfold useTodos.handleDeleteTodo, useTodos.alertAndPress. simpl.
  destruct (pressButton (device c)) as [[[|[|n]]|] w1]; simpl;
    try destruct n; simpl;
    try (repeat split; intros; try discriminate; try congruence; reflexivity).
  run_prog.
  pose proof (authenticateAndExecute_effects (TodoContext.deleteTodo i)
                (Some (js "Authenticate to delete this todo"))
                (set_device c w1)) as E.
  destruct (useAuth.authenticateAndExecute _ _ (set_device c w1))
    as [[[v|e|] c'] t]; simpl in *; rewrite ?app_nil_r;
    destruct E as (_ & E2 & E3 & _);
    change (invocations (EvAlert (js "Delete Todo")
              (js "Are you sure you want to delete this todo?")
              [js "Cancel"; js "Delete"] :: EvPress (Some 1%nat) :: t))
      with (invocations t);
    repeat split; intros; try congruence;
    try (now apply E2);
    match goal with
    | I : invocations t = 1%nat |- _ =>
        destruct (E3 I) as (_ & c0 & S0 & S1 & _);
        rewrite S1; simpl; rewrite S0; reflexivity
    end.
Qed.

End FacadeProperties.

(* ------------------------------------------------------------------ *)
(** ** Trimming *)

Lemma trimStart_app_last (a : jsstring) (c : N) :
  is_white_space c = false -> trimStart (a ++ [c]) = trimStart a ++ [c].
Proof.
  intros Hc. induction a as [|x a IH]; simpl.
  - now rewrite Hc.
  - destruct (is_white_space x); [exact IH | reflexivity].
Qed.

Lemma trimStart_fixed (s : jsstring) :
  match s with [] => True | c :: _ => is_white_space c = false end ->
  trimStart s = s.
Proof. destruct s as [|c r]; simpl; [reflexivity|]. now intros ->. Qed.

Lemma trimStart_head (s : jsstring) :
  match trimStart s with [] => True | c :: _ => is_white_space c = false end.
Proof.
  induction s as [|c r IH]; simpl; [exact I|].
  destruct (is_white_space c) eqn:E; [exact IH | exact E].
Qed.

Lemma trimEnd_head (s : jsstring) :
  match s with [] => True | c :: _ => is_white_space c = false end ->
  match trimEnd s with [] => True | c :: _ => is_white_space c = false end.
Proof.
  destruct s as [|c r]; [intros _; exact I|]. intros Hc.
  unfold trimEnd. simpl rev. rewrite trimStart_app_last by exact Hc.
  rewrite rev_app_distr. simpl. exact Hc.
Qed.

Lemma trimEnd_twice (s : jsstring) : trimEnd (trimEnd s) = trimEnd s.
Proof.
  unfold trimEnd. rewrite rev_involutive.
  rewrite (trimStart_fixed (trimStart (rev s))); [reflexivity|].
  apply trimStart_head.
Qed.

(** Trimming what is trimmed changes nothing. *)
Lemma trim_twice (s : jsstring) : trim (trim s) = trim s.
Proof.
  unfold trim at 1.
  rewrite (trimStart_fixed (trim s)).
  - unfold trim. apply trimEnd_twice.
  - unfold trim. apply trimEnd_head, trimStart_head.
Qed.

Lemma truthy_empty (s : jsstring) : truthy s = false <-> s = [].
Proof. destruct s; simpl; split; congruence. Qed.

(* ------------------------------------------------------------------ *)
(** ** The form and the screen *)

(** X23.  The form submits only a title that is not blank.  When the
    title is blank once trimmed, nothing is submitted and the error of
    the field is "Title is required"; otherwise the error is cleared and
    the data submitted are the trimmed title, which is not empty, and the
    trimmed description, or undefined for a blank description.  The two
    fields themselves are left as typed. *)
Theorem form_submits_trimmed (s : TodoForm.FormState) :
  let '(sent, s') := TodoForm.handleSubmit s in
  TodoForm.titleField s' = TodoForm.titleField s /\
  TodoForm.descriptionField s' = TodoForm.descriptionField s /\
  match sent with
  | Some d =>
      TodoForm.titleError s' = [] /\
      TodoForm.d_title d = trim (TodoForm.titleField s) /\
      TodoForm.d_title d <> [] /\
      match TodoForm.d_description d with
      | Some x => x = trim (TodoForm.descriptionField s) /\ x <> []
      | None => trim (TodoForm.descriptionField s) = []
      end
  | None =>
      trim (TodoForm.titleField s) = [] /\
      TodoForm.titleError s' = js "Title is required"
  end.
Proof.
  unfold TodoForm.handleSubmit, TodoForm.validate,
    TodoForm.trimmed_or_undefined.
  destruct (truthy (trim (TodoForm.titleField s))) eqn:E; simpl.
  - repeat split.
    + intros Z. rewrite Z in E. discriminate.
    + destruct (truthy (trim (TodoForm.descriptionField s))) eqn:D.
      * split; [reflexivity|]. intros Z. rewrite Z in D. discriminate.
      * now apply truthy_empty.
  - repeat split. now apply truthy_empty.
Qed.

Section ScreenFacts.
Context {W : Type} `{Platform W}.

Lemma update_list (i : jsstring) (u : UpdateTodoInput) (l : list Todo) (w : W) :
  Forall2 (fun t t1 =>
             if strict_eq (id t) i
             then id t1 = id t /\ createdAt t1 = createdAt t /\
                  completed t1 = match u_completed u with
                                 | Some x => x | None => completed t end /\
                  title t1 = match u_title u with
                             | Some x => x | None => title t end /\
                  description t1 = match u_description u with
                                   | Some x => x | None => description t end
             else t1 = t) l (fst (map_now (update_one i u) l w)).
Proof.
  revert w. induction l as [|t l IH]; intros w; simpl; [constructor|].
  unfold update_one at 1. destruct (strict_eq (id t) i) eqn:E.
  - destruct (dateNow w) as [now w1]. specialize (IH w1).
    destruct (map_now (update_one i u) l w1) as [l1 w2]. simpl in *.
    constructor; [rewrite E; repeat split | exact IH].
  - specialize (IH w).
    destruct (map_now (update_one i u) l w) as [l1 w2]. simpl in *.
    constructor; [rewrite E; reflexivity | exact IH].
Qed.

(** X24.  What the form submits passes the validation of the facade, and
    is stored as submitted.  For the data of a submitted form, the create
    handler does not turn the input down: it is the gated create.  The
    item that the create builds carries the title and the description of
    the form, trimmed once: trimming them again changes nothing. *)
Theorem submitted_form_is_accepted
    (s s' : TodoForm.FormState) (d : TodoForm.FormData)
    (scr : TodoListScreen.ScreenState) (c : Core W) (w : W) :
  TodoForm.handleSubmit s = (Some d, s') ->
  useTodos.handleAddTodo (TodoForm.asCreate d) c
  = (useAuth.authenticateAndExecute
       (TodoContext.addTodo (TodoForm.asCreate d))
       (Some (js "Authenticate to add a new todo")) ;; ret tt) c /\
  (TodoListScreen.editingTodo scr = None ->
   TodoListScreen.handleFormSubmit scr d c
   = (useTodos.handleAddTodo (TodoForm.asCreate d) ;;
      ret TodoListScreen.handleCloseForm) c) /\
  title (fst (TodoContext.newTodo (TodoForm.asCreate d) w))
  = trim (TodoForm.titleField s) /\
  description (fst (TodoContext.newTodo (TodoForm.asCreate d) w))
  = TodoForm.d_description d.
Proof.
  intros S.
  unfold TodoForm.handleSubmit, TodoForm.validate in S.
  destruct (truthy (trim (TodoForm.titleField s))) eqn:N; simpl in S;
    [|discriminate].
  destruct (newTodo_fields (TodoForm.asCreate d) w) as (A & B & _).
  injection S as S _. subst d. simpl in *.
  repeat split.
  - unfold useTodos.handleAddTodo. simpl. rewrite trim_twice, N.
    reflexivity.
  - intros E. unfold TodoListScreen.handleFormSubmit. now rewrite E.
  - rewrite A. simpl. apply trim_twice.
  - rewrite B. simpl. unfold TodoForm.trimmed_or_undefined.
    destruct (truthy (trim (TodoForm.descriptionField s))); simpl;
      [|reflexivity].
    now rewrite trim_twice.
Qed.

(** X25.  Editing through the form changes the text of the item and
    nothing else.  The edit form opens on the first item of the list that
    carries the id, and does not open when no item does.  The update that
    the submitted form makes gives every item of the id the title and the
    description of the form and keeps its id, its [createdAt] and its
    [completed]; the items of another id are untouched. *)
Theorem edit_changes_text_only
    (i : jsstring) (scr : TodoListScreen.ScreenState) (d : TodoForm.FormData)
    (st : TodoState) (c : Core W) (w : W) :
  match TodoListScreen.findTodo i (todos st) with
  | Some t =>
      id t = i /\ In t (todos st) /\
      TodoListScreen.handleOpenEditForm i (todos st) scr
      = {| TodoListScreen.isFormVisible := true;
           TodoListScreen.editingTodo := Some t |} /\
      TodoListScreen.handleFormSubmit
        (TodoListScreen.handleOpenEditForm i (todos st) scr) d c
      = (useTodos.handleUpdateTodo i (TodoForm.asUpdate d) ;;
         ret TodoListScreen.handleCloseForm) c
  | None =>
      ~ In i (map id (todos st)) /\
      TodoListScreen.handleOpenEditForm i (todos st) scr = scr
  end /\
  Forall2 (fun t t1 =>
             if strict_eq (id t) i
             then id t1 = id t /\ createdAt t1 = createdAt t /\
                  completed t1 = completed t /\
                  title t1 = TodoForm.d_title d /\
                  description t1 = TodoForm.d_description d
             else t1 = t)
          (todos st)
          (todos (fst (todoReducer st (UPDATE_TODO i (TodoForm.asUpdate d)) w))).
Proof.
  split.
  - unfold TodoListScreen.handleOpenEditForm, TodoListScreen.findTodo.
    destruct (find (fun t => strict_eq (id t) i) (todos st)) as [t|] eqn:F.
    + apply find_some in F as [Ht E]. apply strict_eq_true in E.
      repeat split; try assumption.
      unfold TodoListScreen.handleFormSubmit. simpl. now rewrite E.
    + split; [|reflexivity]. intros Hin.
      apply in_map_iff in Hin as (t & E & Ht).
      pose proof (find_none _ _ F t Ht) as N. simpl in N.
      rewrite E, strict_eq_refl in N. discriminate.
  - pose proof (update_list i (TodoForm.asUpdate d) (todos st) w) as U.
    simpl in *.
    destruct (map_now (update_one i (TodoForm.asUpdate d)) (todos st) w)
      as [l1 w1]. simpl in *. exact U.
Qed.

End ScreenFacts.

(* ------------------------------------------------------------------ *)
(** ** Layout breakpoints *)

(** X26.  The number of columns follows the breakpoints: it is 1, 2 or
    3, it does not decrease when the window gets wider, it is at least 2
    exactly on a tablet, and a small device, which is never a tablet, has
    one column. *)
Theorem columns_follow_breakpoints (width wider : Q) :
  (1 <= responsive.getNumColumns width <= 3)%nat /\
  (responsive.isTablet width = true <->
   (2 <= responsive.getNumColumns width)%nat) /\
  (responsive.isSmallDevice width = true ->
   responsive.isTablet width = false /\
   responsive.getNumColumns width = 1%nat) /\
  (width <= wider ->
   (responsive.getNumColumns width <= responsive.getNumColumns wider)%nat).
Proof.
  unfold responsive.getNumColumns, responsive.isTablet,
    responsive.isSmallDevice.
  destruct (Qle_bool 1024 width) eqn:A; destruct (Qle_bool 768 width) eqn:B;
    destruct (Qle_bool 375 width) eqn:C;
    destruct (Qle_bool 1024 wider) eqn:A'; destruct (Qle_bool 768 wider) eqn:B';
    simpl; repeat split; intros; try lia; try discriminate;
    repeat match goal with
           | E : Qle_bool _ _ = true |- _ => apply Qle_bool_iff in E
           | E : Qle_bool ?a ?b = false |- _ =>
               assert (~ a <= b) by (rewrite <- Qle_bool_iff, E; discriminate);
               clear E
           end;
    exfalso;
    repeat match goal with
           | N : ~ ?a <= ?b |- _ => apply Qnot_le_lt in N
           end;
    try (assert (768 <= 1024) by (unfold Qle; simpl; lia));
    try (assert (375 <= 768) by (unfold Qle; simpl; lia));
    repeat match goal with
           | L : (?a <= ?b)%Q, M : (?b <= ?c)%Q |- _ =>
               lazymatch goal with
               | _ : (a <= c)%Q |- _ => fail
               | _ => pose proof (Qle_trans _ _ _ L M)
               end
           end;
    repeat match goal with
           | L : (?a <= ?b)%Q, M : (?b < ?a)%Q |- _ =>
               exact (Qlt_irrefl _ (Qle_lt_trans _ _ _ L M))
           end.
Qed.

(* ------------------------------------------------------------------ *)
(** ** The further properties on the scripted phones *)

(** X14, on the phone, where the challenge gives the leave, and on the
    faulty phone, where "Continue" does. *)
Lemma gate_invokes_with_leave_witness :
  (let '(_, _, t) :=
     useAuth.authenticateAndExecute answer None (app listed phone) in
   invocations t = 1%nat /\ challenge_resolved true t = true) /\
  (let '(_, _, t) :=
     useAuth.authenticateAndExecute answer None (app listed faulty) in
   invocations t = 1%nat /\ offered (js "Continue") t = true /\
   pressed_button 1 t = true /\ sensorless t = true).
Proof.
  pose proof (@gate_invokes_with_leave Device scripted nat answer None
                (app listed phone)) as G1.
  pose proof (@gate_invokes_with_leave Device scripted nat answer None
                (app listed faulty)) as G2.
  vm_compute in G1, G2. vm_compute.
  destruct G1 as (_ & G1 & _). destruct G2 as (_ & G2 & G3).
  destruct (G1 eq_refl) as [A | [A _]]; [|discriminate A].
  destruct (G2 eq_refl) as [B | [B1 B2]]; [discriminate B|].
  pose proof (G3 eq_refl) as C.
  repeat split; assumption.
Defined.

(** X15, on the phone, where the operation is invoked, and on the phone
    whose user fails the challenge, where it is not. *)
Lemma gate_is_atomic_witness :
  (let '(r, c', t) :=
     useAuth.authenticateAndExecute answer None (app listed phone) in
   invocations t = 1%nat /\ r = Ret (Some 42%nat)) /\
  (let '(r, c', t) :=
     useAuth.authenticateAndExecute answer None (app listed refused) in
   invocations t = 0%nat /\ store c' = listed /\ r = Ret None).
Proof.
  pose proof (@gate_is_atomic Device scripted nat answer None
                (app listed phone)) as G1.
  pose proof (@gate_is_atomic Device scripted nat answer None
                (app listed refused)) as G2.
  vm_compute in G1, G2. vm_compute.
  destruct G1 as (_ & G1). destruct G2 as (G2 & _).
  destruct (G1 eq_refl) as (c0 & _ & _ & A).
  destruct (G2 eq_refl) as (B & [C | C]); [|discriminate C].
  repeat split; assumption.
Defined.

(** X16, on a core that claims an authentication under way. *)
Lemma gate_lowers_flag_witness :
  let '(r, c', _) :=
    useAuth.authenticateAndExecute failing None
      {| store := listed; isAvailable := false; isAuthenticating := true;
         biometricType := js "Biometric"; device := phone |} in
  r = Ret None /\ isAuthenticating c' = false.
Proof.
  pose proof (@gate_lowers_flag Device scripted nat failing None
                {| store := listed; isAvailable := false;
                   isAuthenticating := true;
                   biometricType := js "Biometric"; device := phone |}) as G.
  vm_compute in G. vm_compute.
  split; [reflexivity|]. apply G. discriminate.
Defined.

(** X17, on the phone whose user cancels, on the phone without enrolled
    biometrics, and on the faulty phone, whose user continues. *)
Lemma unavailable_choices_witness :
  (let '(r, _, t) :=
     useAuth.authenticateAndExecute answer None (app listed cancelling) in
   pressed_button 0 t = true /\ r = Ret None /\ invocations t = 0%nat) /\
  (let '(_, _, t) :=
     useAuth.authenticateAndExecute answer None (app listed unenrolled) in
   offered (js "Open Settings") t = true /\ invocations t = 0%nat) /\
  (let '(_, _, t) :=
     useAuth.authenticateAndExecute answer None (app listed faulty) in
   offered (js "Continue") t = true /\ pressed_button 1 t = true /\
   invocations t = 1%nat).
Proof.
  pose proof (@unavailable_choices Device scripted nat answer None
                (app listed cancelling)) as G1.
  pose proof (@unavailable_choices Device scripted nat answer None
                (app listed unenrolled)) as G2.
  pose proof (@unavailable_choices Device scripted nat answer None
                (app listed faulty)) as G3.
  vm_compute in G1, G2, G3. vm_compute.
  destruct G1 as (G1 & _). destruct G2 as (_ & G2 & _).
  destruct G3 as (_ & _ & G3).
  destruct (G1 eq_refl) as [A B].
  pose proof (G2 eq_refl) as C. pose proof (G3 eq_refl eq_refl) as D.
  repeat split; assumption.
Defined.

(** X21, on the phone: a create of " Buy eggs " and an update of the
    title of item 1. *)
Lemma gated_intents_are_atomic_witness :
  (let '(_, c', t) :=
     useTodos.handleAddTodo
       {| c_title := js " Buy eggs "; c_description := None |}
       (app listed phone) in
   invocations t = 1%nat /\
   exists item, todos (store c') = [item; milk] /\
     title item = js "Buy eggs") /\
  (let '(_, c', t) :=
     useTodos.handleUpdateTodo (js "1")
       {| u_title := Some (js "Oat milk"); u_description := None;
          u_completed := None |}
       (app listed refused) in
   invocations t = 0%nat /\ store c' = listed).
Proof.
  pose proof (@gated_intents_are_atomic Device scripted
                {| c_title := js " Buy eggs "; c_description := None |}
                (js "1")
                {| u_title := Some (js "Oat milk"); u_description := None;
                   u_completed := None |}
                (app listed phone) eq_refl) as G1.
  pose proof (@gated_intents_are_atomic Device scripted
                {| c_title := js " Buy eggs "; c_description := None |}
                (js "1")
                {| u_title := Some (js "Oat milk"); u_description := None;
                   u_completed := None |}
                (app listed refused) eq_refl) as G2.
  vm_compute in G1, G2. vm_compute.
  destruct G1 as [G1 _]. destruct G2 as [_ G2].
  destruct G1 as (_ & _ & G1). destruct G2 as (_ & G2 & _).
  destruct (G1 eq_refl) as (item & A & B & _).
  pose proof (G2 eq_refl) as C.
  repeat split; try assumption.
  exists item. split; assumption.
Defined.

(** X22, on the phone, whose user presses "Delete", and on the phone
    whose user presses "Cancel". *)
Lemma delete_needs_confirmation_witness :
  (let '(_, c', t) := useTodos.handleDeleteTodo (js "1") (app listed phone) in
   invocations t = 1%nat /\ todos (store c') = []) /\
  (let '(_, c', t) :=
     useTodos.handleDeleteTodo (js "1") (app listed cancelling) in
   invocations t = 0%nat /\ store c' = listed /\ filter is_biometric t = []).
Proof.
  pose proof (@delete_needs_confirmation Device scripted (js "1")
                (app listed phone)) as G1.
  pose proof (@delete_needs_confirmation Device scripted (js "1")
                (app listed cancelling)) as G2.
  vm_compute in G1, G2. vm_compute.
  destruct G1 as (_ & _ & _ & G1). destruct G2 as (_ & G2 & _).
  destruct (G1 eq_refl) as [_ A].
  assert (N : Some 0%nat <> Some 1%nat) by discriminate.
  destruct (G2 N) as (B & C & D).
  repeat split; assumption.
Defined.

(** X24, on a form with a padded title and a blank description. *)
Lemma submitted_form_is_accepted_witness :
  let s := {| TodoForm.titleField := js "  Buy eggs ";
              TodoForm.descriptionField := js "   ";
              TodoForm.titleError := js "Title is required" |} in
  let d := {| TodoForm.d_title := js "Buy eggs";
              TodoForm.d_description := None |} in
  fst (TodoForm.handleSubmit s) = Some d /\
  title (fst (TodoContext.newTodo (TodoForm.asCreate d) phone))
  = js "Buy eggs" /\
  description (fst (TodoContext.newTodo (TodoForm.asCreate d) phone)) = None.
Proof.
  intros s d.
  destruct (@submitted_form_is_accepted Device scripted s
              (snd (TodoForm.handleSubmit s)) d
              {| TodoListScreen.isFormVisible := true;
                 TodoListScreen.editingTodo := None |}
              (app listed phone) phone eq_refl) as (_ & _ & A & B).
  split; [vm_compute; reflexivity|]. split; [exact A | exact B].
Defined.


(** C4, on the phone: the operation runs once and its 42 comes back. *)
Lemma gate_success_path_witness :
  let '(r, _, t) := useAuth.authenticateAndExecute answer None (app listed phone) in
  phone = device (app listed phone) /\
  invocations t = 1%nat /\ challenge_resolved true t = true /\
  r = Ret (Some 42%nat).
Proof.
  assert (R : ready_device (fun w => w = phone)).
  { repeat split; intros; subst; simpl; try reflexivity; try discriminate.
    eexists. split; reflexivity. }
  pose proof (@gate_success_path Device scripted (fun w => w = phone) R
                nat answer None (app listed phone) eq_refl) as G.
  vm_compute in G. vm_compute.
  destruct G as (G1 & G2 & c0 & _ & _ & G3).
  repeat split; assumption.
Defined.
